(** * Energy dashboard: period alignment and aggregation

    A shallow embedding of [src/project/app.py] (a Streamlit page over
    pandas and plotly) together with the properties that its specification
    states about it.  pandas data frames are objects that the program
    shares and updates in place, so frames live in a store and every
    function of the program is a computation over that store. *)

From Stdlib Require Import ZArith List String Ascii Lia Sorted OrderedTypeEx.
From stdpp Require Import base option list gmap strings.

Local Open Scope Z_scope.

(** ** Calendar arithmetic

    A pandas [Timestamp] is a 64-bit count of nanoseconds since
    1970-01-01T00:00:00; a [datetime.date] is a day of the proleptic
    Gregorian calendar, kept here as its day number since 1970-01-01. *)

Module Calendar.

Definition NS_PER_DAY : Z := 86400 * 1000000000.

Definition INT64_MIN : Z := - 2 ^ 63.
Definition INT64_MAX : Z := 2 ^ 63 - 1.

(** [Timestamp.date()], and [Timestamp.normalize()] as a day number. *)
Definition date_of (t : Z) : Z := t / NS_PER_DAY.

(** Midnight at the start of day [d], in nanoseconds. *)
Definition midnight (d : Z) : Z := d * NS_PER_DAY.

(** Day number to (year, month, day). *)
Definition civil_from_days (z : Z) : Z * Z * Z :=
  let z := z + 719468 in
  let era := z / 146097 in
  let doe := z - era * 146097 in
  let yoe := (doe - doe / 1460 + doe / 36524 - doe / 146096) / 365 in
  let doy := doe - (365 * yoe + yoe / 4 - yoe / 100) in
  let mp := (5 * doy + 2) / 153 in
  let d := doy - (153 * mp + 2) / 5 + 1 in
  let m := if mp <? 10 then mp + 3 else mp - 9 in
  let y := yoe + era * 400 + (if m <=? 2 then 1 else 0) in
  (y, m, d).

(** (year, month, day) to day number. *)
Definition days_from_civil (y m d : Z) : Z :=
  let y := if m <=? 2 then y - 1 else y in
  let era := y / 400 in
  let yoe := y - era * 400 in
  let doy := (153 * (if m >? 2 then m - 3 else m + 9) + 2) / 5 + d - 1 in
  let doe := yoe * 365 + yoe / 4 - yoe / 100 + doy in
  era * 146097 + doe - 719468.

Definition year_of_day (d : Z) : Z := fst (fst (civil_from_days d)).
Definition month_of_day (d : Z) : Z := snd (fst (civil_from_days d)).
Definition day_of_day (d : Z) : Z := snd (civil_from_days d).

(** [Series.dt.day], [Series.dt.weekday] (Monday is 0; day 0 was a
    Thursday). *)
Definition day_of_month (t : Z) : Z := day_of_day (date_of t).
Definition weekday_of_day (d : Z) : Z := (d + 3) mod 7.
Definition weekday (t : Z) : Z := weekday_of_day (date_of t).

(** Decimal rendering with zero padding, as [%02d] and [%04d]. *)
Definition digit (z : Z) : ascii := ascii_of_nat (48 + Z.to_nat (z mod 10)).

Definition fmt2 (z : Z) : string :=
  String (digit (z / 10)) (String (digit z) EmptyString).

Definition fmt4 (z : Z) : string :=
  String (digit (z / 1000)) (String (digit (z / 100)) (fmt2 z)).

(** [str(date)]: YYYY-MM-DD. *)
Definition date_str (d : Z) : string :=
  let '(y, m, dd) := civil_from_days d in
  (fmt4 y ++ "-" ++ fmt2 m ++ "-" ++ fmt2 dd)%string.

(** [str(Period(t, "M"))]: YYYY-MM. *)
Definition month_label (t : Z) : string :=
  let '(y, m, _) := civil_from_days (date_of t) in
  (fmt4 y ++ "-" ++ fmt2 m)%string.

(** The weekly period of pandas ("W", that is W-SUN) runs from Monday
    to Sunday; its string is "<monday>/<sunday>". *)
Definition week_start (d : Z) : Z := d - weekday_of_day d.
Definition week_end (d : Z) : Z := week_start d + 6.

Definition week_label (t : Z) : string :=
  let d := date_of t in
  (date_str (week_start d) ++ "/" ++ date_str (week_end d))%string.

End Calendar.


(** ** Data frames

    A cell of a frame is a number, which the model takes to be an integer
    (a cell of an int64 column, or of a float64 column), a string (an
    object column) or a timestamp (a datetime64[ns] column).  A row
    carries its index label and its cells by column name; a column name
    without a cell is a missing value (NaN, or NaT in a datetime
    column). *)

Inductive Cell : Type :=
  | CNum (n : Z)
  | CStr (s : string)
  | CTime (t : Z).

Record Row : Type := mkRow {
  label : nat;
  cells : gmap string Cell
}.

Record DataFrame : Type := mkDF {
  columns : list string;
  rows : list Row
}.

(** A pandas [Series] taken out of a frame: one optional cell per row. *)
Definition Series : Type := list (option Cell).

(** ** Exceptions and the two monads

    [Outcome] is a Python expression that returns or raises; it is used
    for the expressions that only read values.  [M] adds the state of the
    process: the store of frames, the Streamlit session and the widgets
    rendered so far.  State written before an exception is kept. *)

Inductive Exn : Type :=
  | KeyError
  | ValueError
  | TypeError
  | AttributeError
  | IndexError
  | OutOfBoundsDatetime
  | DateParseError
  | RerunException
  | DanglingRef.

Inductive Outcome (A : Type) : Type :=
  | Ok (a : A)
  | Raise (e : Exn).
Arguments Ok {A} a.
Arguments Raise {A} e.

#[export] Instance Outcome_ret : MRet Outcome := fun _ a => Ok a.
#[export] Instance Outcome_bind : MBind Outcome := fun _ _ f m =>
  match m with
  | Ok a => f a
  | Raise e => Raise e
  end.

Definition loc : Type := nat.

(** A line or bar chart request of plotly express: the frame it was built
    from and the columns bound to the axes and to the colour. *)
Inductive FigKind : Type := LineChart | BarChart.

Record Figure : Type := mkFigure {
  fig_kind : FigKind;
  fig_frame : DataFrame;
  fig_x : string;
  fig_y : option string;
  fig_color : option string;
  fig_xaxis_title : option string
}.

(** What a metric shows, as the value that its f-string formats.  pandas
    computes a mean in floating point, the model keeps the exact total and
    count; [MNaN] is [nan]; [MTime] and [MTimeMean] are the [Timestamp]
    values that a datetime column gives. *)
Inductive MetricVal : Type :=
  | MNaN
  | MInt (n : Z)
  | MMean (total : Z) (count : nat)
  | MTime (t : Z)
  | MTimeMean (total : Z) (count : nat)
  | MPeak (ts : list (option Cell))
  | MText (s : string).

(** The elements a run puts on the page, in the order of the calls.  An
    input widget is recorded with its label and with the options or the
    default value it is given; what the user did with it is in the
    [UserInput] of the run. *)
Inductive Widget : Type :=
  | WPageConfig (title : string)
  | WMarkdown (html : string)
  | WButton (label : string)
  | WExpander (title : string)
  | WFileUploader (label : string)
  | WSelectbox (label : string) (options : list string)
  | WDateInput (label : string) (min_date max_date : Z)
  | WMultiselect (label : string) (options : list string)
  | WWarning (msg : string)
  | WMetric (name : string) (v : MetricVal)
  | WDataframe (df : DataFrame)
  | WPlotly (fig : Figure).

(** [st.session_state]: an absent key is [None]. *)
Record Session : Type := mkSession {
  csv_data : option loc;
  app_mode : option string
}.

Record State : Type := mkState {
  heap : list DataFrame;
  session : Session;
  ui : list Widget
}.

Definition M (A : Type) : Type := State -> Outcome A * State.

#[export] Instance M_ret : MRet M := fun _ a st => (Ok a, st).
#[export] Instance M_bind : MBind M := fun _ _ f m st =>
  match m st with
  | (Ok a, st') => f a st'
  | (Raise e, st') => (Raise e, st')
  end.

Definition lift {A} (o : Outcome A) : M A := fun st => (o, st).
Definition raise {A} (e : Exn) : M A := fun st => (Raise e, st).

(** Store primitives. *)
Definition load (r : loc) : M DataFrame := fun st =>
  match heap st !! r with
  | Some df => (Ok df, st)
  | None => (Raise DanglingRef, st)
  end.

Definition alloc (df : DataFrame) : M loc := fun st =>
  (Ok (length (heap st)),
   mkState (heap st ++ [df]) (session st) (ui st)).

Definition store (r : loc) (df : DataFrame) : M unit := fun st =>
  (Ok tt, mkState (<[r := df]> (heap st)) (session st) (ui st)).

Definition get_session : M Session := fun st => (Ok (session st), st).

Definition put_session (s : Session) : M unit := fun st =>
  (Ok tt, mkState (heap st) s (ui st)).

Definition show (w : Widget) : M unit := fun st =>
  (Ok tt, mkState (heap st) (session st) (ui st ++ [w])).

(** A [for] loop that threads the value bound by the loop body. *)
Fixpoint for_each {A B} (l : list B) (a : A) (body : A -> B -> M A) : M A :=
  match l with
  | [] => mret a
  | b :: l' => a' ← body a b; for_each l' a' body
  end.

(** ** The pandas and plotly operations the program calls *)

Fixpoint mapM {A B} (f : A -> Outcome B) (l : list A) : Outcome (list B) :=
  match l with
  | [] => Ok []
  | a :: l' => b ← f a; bs ← mapM f l'; Ok (b :: bs)
  end.

Definition has_column (df : DataFrame) (c : string) : bool :=
  bool_decide (c ∈ columns df).

(** [df[c]] *)
Definition getitem (df : DataFrame) (c : string) : Outcome Series :=
  if has_column df c then Ok (map (fun r => cells r !! c) (rows df))
  else Raise KeyError.

(** The [.dt] accessor exists on datetime columns only; a missing cell is
    [NaT]. *)
Definition dt (s : Series) : Outcome (list (option Z)) :=
  mapM (fun c => match c with
                 | None => Ok None
                 | Some (CTime t) => Ok (Some t)
                 | Some _ => Raise AttributeError
                 end) s.

(** [.dt.to_period(freq).astype(str)]: the label of the period each
    timestamp falls in.  A missing timestamp is rendered as pandas 2
    renders it, by the string "NaT"; pandas 3 gives a missing label
    instead, which no selection equals.  The two agree on a column
    without missing timestamps. *)
Definition period_str (lbl : Z -> string) (ts : list (option Z)) : list string :=
  map (fun o => match o with
                | Some t => lbl t
                | None => "NaT"%string
                end) ts.

Definition to_period_M_str : list (option Z) -> list string :=
  period_str Calendar.month_label.

Definition to_period_W_str : list (option Z) -> list string :=
  period_str Calendar.week_label.

(** [.dt.day] and [.dt.weekday]: a calendar field of each timestamp. *)
Definition dt_field (f : Z -> Z) (ts : list (option Z)) : Series :=
  map (fun o => (fun t => CNum (f t)) <$> o) ts.

Definition dt_day : list (option Z) -> Series :=
  dt_field Calendar.day_of_month.

Definition dt_weekday : list (option Z) -> Series :=
  dt_field Calendar.weekday.

(** [.unique()]: the distinct values, in order of first appearance. *)
Fixpoint unique (l : list string) : list string :=
  match l with
  | [] => []
  | x :: l' => x :: List.filter (fun y => negb (String.eqb y x)) (unique l')
  end.

(** [series == m] on strings *)
Definition series_eq_str (ss : list string) (m : string) : list bool :=
  map (fun s => String.eqb s m) ss.

(** [series >= t] and [series <= t] against a timestamp: [NaT] compares
    false, a column that is not a datetime column cannot be compared. *)
Definition series_cmp (cmp : Z -> Z -> bool) (s : Series) (t : Z)
  : Outcome (list bool) :=
  mapM (fun c => match c with
                 | None => Ok false
                 | Some (CTime a) => Ok (cmp a t)
                 | Some _ => Raise TypeError
                 end) s.

Definition mask_and (m1 m2 : list bool) : list bool := zip_with andb m1 m2.

(** [pd.to_datetime(d)] for a [datetime.date]: midnight of that day.  With
    nanosecond timestamps (pandas 2) a date outside the 64-bit range
    raises [OutOfBoundsDatetime]; pandas 3 keeps a coarser unit there and
    returns.  The two agree on the dates of [date_in_bounds]. *)
Definition to_datetime_date (d : Z) : Outcome Z :=
  let t := Calendar.midnight d in
  if (Calendar.INT64_MIN <? t) && (t <=? Calendar.INT64_MAX) then Ok t
  else Raise OutOfBoundsDatetime.

(** Rows kept by a boolean mask. *)
Fixpoint mask_rows (rs : list Row) (mask : list bool) : list Row :=
  match rs, mask with
  | r :: rs', b :: mask' =>
      if b then r :: mask_rows rs' mask' else mask_rows rs' mask'
  | _, _ => []
  end.

(** [df[mask]] and [df.loc[mask]]: a new frame. *)
Definition getitem_mask (r : loc) (mask : list bool) : M loc :=
  df ← load r;
  alloc (mkDF (columns df) (mask_rows (rows df) mask)).

(** [df.copy()] *)
Definition df_copy (r : loc) : M loc :=
  df ← load r; alloc df.

Definition add_column (cols : list string) (c : string) : list string :=
  if bool_decide (c ∈ cols) then cols else cols ++ [c].

Definition set_cell (c : string) (row : Row) (v : option Cell) : Row :=
  mkRow (label row)
        (match v with
         | Some x => <[c := x]> (cells row)
         | None => delete c (cells row)
         end).

(** [df[c] = v] for a scalar [v]: updates the frame in place. *)
Definition setitem_scalar (r : loc) (c : string) (v : Cell) : M unit :=
  df ← load r;
  store r (mkDF (add_column (columns df) c)
                (map (fun row => set_cell c row (Some v)) (rows df))).

(** [df[c] = s] for a series [s] taken from the same frame: in place. *)
Definition setitem_series (r : loc) (c : string) (s : Series) : M unit :=
  df ← load r;
  store r (mkDF (add_column (columns df) c)
                (zip_with (set_cell c) (rows df) s)).

(** [pd.DataFrame()] and [pd.concat([a, b])] *)
Definition new_frame : M loc := alloc (mkDF [] []).

Definition concat_frames (a b : DataFrame) : DataFrame :=
  mkDF (columns a ++ filter (fun c => c ∉ columns a) (columns b))
       (rows a ++ rows b).

Definition pd_concat (ra rb : loc) : M loc :=
  a ← load ra; b ← load rb; alloc (concat_frames a b).

(** [px.line] and [px.bar]: every column named by an argument must be a
    column of the frame, otherwise plotly raises [ValueError]. *)
Definition opt_has_column (df : DataFrame) (o : option string) : bool :=
  match o with
  | Some c => has_column df c
  | None => true
  end.

Definition px_chart (k : FigKind) (r : loc) (x : string)
    (y color : option string) : M Figure :=
  df ← load r;
  if has_column df x && opt_has_column df y && opt_has_column df color
  then mret (mkFigure k df x y color None)
  else raise ValueError.

Definition update_layout (fig : Figure) (xaxis_title : string) : Figure :=
  mkFigure (fig_kind fig) (fig_frame fig) (fig_x fig) (fig_y fig)
           (fig_color fig) (Some xaxis_title).

(** ** [build_comparison_df] *)

(** The f-string [f"{base_start} → {base_end}"]. *)
Definition date_range_label (base_start base_end : Z) : string :=
  (Calendar.date_str base_start ++ " → " ++ Calendar.date_str base_end)%string.

(** [data["Timestamp"].dt.to_period("M").astype(str) == m] *)
Definition month_mask (df : DataFrame) (m : string) : Outcome (list bool) :=
  col ← getitem df "Timestamp";
  ts ← dt col;
  Ok (series_eq_str (to_period_M_str ts) m).

Definition week_mask (df : DataFrame) (w : string) : Outcome (list bool) :=
  col ← getitem df "Timestamp";
  ts ← dt col;
  Ok (series_eq_str (to_period_W_str ts) w).

(** [(data["Timestamp"] >= pd.to_datetime(base_start))
     & (data["Timestamp"] <= pd.to_datetime(base_end))] *)
Definition range_mask (df : DataFrame) (base_start base_end : Z)
  : Outcome (list bool) :=
  col1 ← getitem df "Timestamp";
  lo ← to_datetime_date base_start;
  m1 ← series_cmp Z.geb col1 lo;
  col2 ← getitem df "Timestamp";
  hi ← to_datetime_date base_end;
  m2 ← series_cmp Z.leb col2 hi;
  Ok (mask_and m1 m2).

Definition build_comparison_df (data : loc) (selected_var : option string)
    (date_range : Z * Z) (months weeks : list string) : M (loc * Figure) :=
  let '(base_start, base_end) := date_range in
  final_df ← new_frame;
  match months, weeks with
  | _ :: _, _ =>
      (* Month comparison *)
      final_df ← for_each months final_df (fun final_df m =>
        d ← load data;
        mask ← lift (month_mask d m);
        df_m ← getitem_mask data mask;
        setitem_scalar df_m "Period" (CStr m);;
        dm ← load df_m;
        days ← lift (col ← getitem dm "Timestamp"; ts ← dt col;
                     Ok (dt_day ts));
        setitem_series df_m "AlignedX" days;;
        pd_concat final_df df_m);
      trend_plot ← px_chart LineChart final_df "AlignedX" selected_var
                            (Some "Period"%string);
      mret (final_df, update_layout trend_plot "Day of Month")
  | [], _ :: _ =>
      (* Week comparison *)
      final_df ← for_each weeks final_df (fun final_df w =>
        d ← load data;
        mask ← lift (week_mask d w);
        df_w ← getitem_mask data mask;
        setitem_scalar df_w "Period" (CStr w);;
        dw ← load df_w;
        days ← lift (col ← getitem dw "Timestamp"; ts ← dt col;
                     Ok (dt_weekday ts));
        setitem_series df_w "AlignedX" days;;
        pd_concat final_df df_w);
      trend_plot ← px_chart LineChart final_df "AlignedX" selected_var
                            (Some "Period"%string);
      mret (final_df, update_layout trend_plot "Day of Week")
  | [], [] =>
      (* Default date range *)
      d ← load data;
      mask ← lift (range_mask d base_start base_end);
      sel ← getitem_mask data mask;
      final_df ← df_copy sel;
      setitem_scalar final_df "Period"
                     (CStr (date_range_label base_start base_end));;
      trend_plot ← px_chart LineChart final_df "Timestamp" selected_var
                            (Some "Period"%string);
      mret (final_df, trend_plot)
  end.

(** ** [render_kpis] *)

(** [df[selected_var]]; the selector yields [None] when it has no option. *)
Definition getitem_opt (df : DataFrame) (c : option string) : Outcome Series :=
  match c with
  | Some c => getitem df c
  | None => Raise KeyError
  end.

(** The numbers of a numeric column and the nanoseconds of a datetime
    column; a cell of another kind makes the reduction raise [TypeError],
    as the mean of a column of strings does. *)
Definition numeric (s : Series) : Outcome (list (option Z)) :=
  mapM (fun c => match c with
                 | None => Ok None
                 | Some (CNum n) => Ok (Some n)
                 | Some _ => Raise TypeError
                 end) s.

Definition stamps (s : Series) : Outcome (list (option Z)) :=
  mapM (fun c => match c with
                 | None => Ok None
                 | Some (CTime t) => Ok (Some t)
                 | Some _ => Raise TypeError
                 end) s.

(** A column that holds a timestamp is a datetime column. *)
Definition is_time (c : option Cell) : bool :=
  match c with
  | Some (CTime _) => true
  | _ => false
  end.

Definition is_datetime (s : Series) : bool := existsb is_time s.

(** The values [.mean()], [.max()], [.min()] and [.idxmax()] work on. *)
Definition reduced (s : Series) : Outcome (list (option Z)) :=
  if is_datetime s then stamps s else numeric s.

Definition dropna (vals : list (option Z)) : list Z := omap id vals.

(** [.mean()], [.max()], [.min()] skip missing values and give [nan] when
    nothing is left; on a datetime column they give a [Timestamp]. *)
Definition series_mean (s : Series) : Outcome MetricVal :=
  vals ← reduced s;
  match dropna vals with
  | [] => Ok MNaN
  | xs => Ok ((if is_datetime s then MTimeMean else MMean)
                (fold_left Z.add xs 0) (length xs))
  end.

Definition series_max (s : Series) : Outcome MetricVal :=
  vals ← reduced s;
  match dropna vals with
  | [] => Ok MNaN
  | x :: xs => Ok ((if is_datetime s then MTime else MInt)
                     (fold_left Z.max xs x))
  end.

Definition series_min (s : Series) : Outcome MetricVal :=
  vals ← reduced s;
  match dropna vals with
  | [] => Ok MNaN
  | x :: xs => Ok ((if is_datetime s then MTime else MInt)
                     (fold_left Z.min xs x))
  end.

(** The first position holding the maximum. *)
Fixpoint argmax (best : option (nat * Z)) (l : list (nat * option Z))
  : option (nat * Z) :=
  match l with
  | [] => best
  | (_, None) :: l' => argmax best l'
  | (i, Some v) :: l' =>
      match best with
      | Some (_, b) =>
          if v >? b then argmax (Some (i, v)) l' else argmax best l'
      | None => argmax (Some (i, v)) l'
      end
  end.

(** [.idxmax()]: the index label of the first maximum; an empty series
    has none. *)
Definition idxmax (labels : list nat) (s : Series) : Outcome nat :=
  vals ← reduced s;
  match argmax None (zip labels vals) with
  | Some (i, _) => Ok i
  | None => Raise ValueError
  end.

(** [df.loc[i, c]]: the cells of column [c] in the rows labelled [i]. *)
Definition loc_cell (df : DataFrame) (i : nat) (c : string) : Series :=
  map (fun r => cells r !! c)
      (List.filter (fun r => Nat.eqb (label r) i) (rows df)).

Definition render_kpis (df : loc) (selected_var : option string) : M unit :=
  d ← load df;
  avg_val ← lift (col ← getitem_opt d selected_var; series_mean col);
  max_val ← lift (col ← getitem_opt d selected_var; series_max col);
  min_val ← lift (col ← getitem_opt d selected_var; series_min col);
  peak_time ← lift
    (if has_column d "Timestamp"
     then col ← getitem_opt d selected_var;
          i ← idxmax (map label (rows d)) col;
          Ok (MPeak (loc_cell d i "Timestamp"))
     else Ok (MText "Aligned"));
  show (WMetric "Average" avg_val);;
  show (WMetric "Maximum" max_val);;
  show (WMetric "Baseload" min_val);;
  show (WMetric "Peak Occurred At" peak_time).

(** ** The totals of the bar chart

    [final_df.groupby("Period")[selected_var].sum().reset_index()].
    [groupby] sorts the group keys (its default [sort=True]); rows whose
    key is missing are left out; a missing value adds nothing to a sum.
    The sum is that of a column of numbers: of an int64 column, which
    wraps around at 64 bits, or of a float64 column, which does not and
    which the model keeps exact, as it does the mean.  The strings of an
    object column, which pandas would concatenate, are not summed here:
    the model gives them [TypeError], which is what [render_kpis] raises
    on such a column before [dashboard] comes to the totals. *)

Definition wrap64 (z : Z) : Z := (z + 2 ^ 63) mod 2 ^ 64 - 2 ^ 63.

(** A column of numbers in which a value is missing is a float64 column;
    without missing value it is taken to be an int64 column. *)
Definition sum_wrap (col : Series) : Z -> Z :=
  if forallb (fun c => match c with Some _ => true | None => false end) col
  then wrap64 else id.

Fixpoint group_add (wrap : Z -> Z) (k : string) (v : Z)
    (acc : list (string * Z)) : list (string * Z) :=
  match acc with
  | [] => [(k, wrap v)]
  | (k', s) :: rest =>
      match String.compare k k' with
      | Eq => (k', wrap (s + v)) :: rest
      | Lt => (k, wrap v) :: acc
      | Gt => (k', s) :: group_add wrap k v rest
      end
  end.

Definition row_key (key : string) (r : Row) : Outcome (option string) :=
  match cells r !! key with
  | None => Ok None
  | Some (CStr k) => Ok (Some k)
  | Some _ => Raise TypeError
  end.

Definition cell_num (c : option Cell) : Outcome Z :=
  match c with
  | None => Ok 0
  | Some (CNum n) => Ok n
  | Some _ => Raise TypeError
  end.

Definition group_step (wrap : Z -> Z) (acc : list (string * Z))
    (kv : option string * Z) : list (string * Z) :=
  match kv with
  | (Some k, v) => group_add wrap k v acc
  | (None, _) => acc
  end.

Definition groupby_sum (df : DataFrame) (key : string) (var : option string)
  : Outcome (list (string * Z)) :=
  if has_column df key then
    col ← getitem_opt df var;
    ks ← mapM (row_key key) (rows df);
    vs ← mapM cell_num col;
    Ok (fold_left (group_step (sum_wrap col)) (zip ks vs) [])
  else Raise KeyError.

(** [.reset_index()]: the keys become a column again; the name must be
    free. *)
Definition totals_frame (key var : string) (groups : list (string * Z))
  : Outcome DataFrame :=
  if String.eqb key var then Raise ValueError
  else Ok (mkDF [key; var]
                (imap (fun i kv => mkRow i (<[var := CNum kv.2]>
                                            (<[key := CStr kv.1]> ∅)))
                      groups)).

Definition aggregate_by_period (final_df : loc) (selected_var : option string)
  : M loc :=
  d ← load final_df;
  groups ← lift (groupby_sum d "Period" selected_var);
  totals ← lift (match selected_var with
                 | Some v => totals_frame "Period" v groups
                 | None => Raise KeyError
                 end);
  alloc totals.

(** ** The page: sidebar, dashboard and router

    What the user did in the browser during one run of the script. *)

Inductive DateInput : Type :=
  | DTuple (ds : list Z)
  | DSingle (d : Z).

Record UserInput : Type := mkInput {
  refresh_clicked : bool;
  back_clicked : bool;
  go_clicked : bool;
  (** the file in the uploader, as [pd.read_csv] reads it *)
  uploaded_file : option DataFrame;
  (** position picked in the variable selector *)
  var_choice : nat;
  (** [None]: the date widget still shows its default value *)
  raw_date : option DateInput;
  picked_months : list string;
  picked_weeks : list string
}.

Definition SidebarOut : Type :=
  (loc * option string * (Z * Z) * list string * list string)%type.

(** [st.multiselect]: the picks, in the order they were made; only an
    option can be picked. *)
Definition multiselect (options picks : list string) : list string :=
  List.filter (fun p => bool_decide (p ∈ options)) picks.

(** [series.min()] and [series.max()] of a datetime column skip [NaT]. *)
Definition times (s : Series) : list Z :=
  omap (fun c => match c with Some (CTime t) => Some t | _ => None end) s.

Definition time_min (s : Series) : option Z :=
  match times s with
  | [] => None
  | t :: l => Some (fold_left Z.min l t)
  end.

Definition time_max (s : Series) : option Z :=
  match times s with
  | [] => None
  | t :: l => Some (fold_left Z.max l t)
  end.

(** [.date()]; [NaT] has no date. *)
Definition date_method (t : option Z) : Outcome Z :=
  match t with
  | Some t => Ok (Calendar.date_of t)
  | None => Raise ValueError
  end.

Definition set_csv_data (r : loc) : M unit :=
  s ← get_session; put_session (mkSession (Some r) (app_mode s)).

Definition set_app_mode (m : string) : M unit :=
  s ← get_session; put_session (mkSession (csv_data s) (Some m)).

(** The style sheets and the multi-line markup sent with [st.markdown] are
    kept by their opening tag; the layout calls [st.columns] and
    [st.container] show nothing of their own and are left out. *)
Definition page_style : Widget := WMarkdown "<style>".

Definition setup_page : M unit :=
  show (WPageConfig "Energy Intelligence Dashboard");;
  show page_style.

Section App.

(** The timestamp parser of pandas: the nanoseconds a string denotes,
    if it denotes a date and time. *)
Variable parse_datetime : string -> option Z.

(** [pd.to_datetime(series)]: strings are parsed, integers are
    nanoseconds, timestamps and missing values stay; one string that
    does not parse fails the call. *)
Definition to_datetime_series (s : Series) : Outcome Series :=
  mapM (fun c => match c with
                 | None => Ok None
                 | Some (CTime t) => Ok (Some (CTime t))
                 | Some (CNum n) => Ok (Some (CTime n))
                 | Some (CStr x) =>
                     match parse_datetime x with
                     | Some t => Ok (Some (CTime t))
                     | None => Raise DateParseError
                     end
                 end) s.

Definition render_navbar (inp : UserInput) : M unit :=
  show (WMarkdown "<div class='nav-title'>Energy Intelligence Dashboard</div>");;
  show (WButton "↻");;
  (if refresh_clicked inp then raise RerunException else mret tt);;
  show (WButton "←");;
  (if back_clicked inp
   then set_app_mode "landing";; raise RerunException
   else mret tt);;
  show (WMarkdown "<hr style='margin-top:0px;'>").

Definition render_sidebar (inp : UserInput) : M (option SidebarOut) :=
  show (WMarkdown "<h2 class='sidebar-title'>Dashboard Options</h2>");;
  (* FILE UPLOAD *)
  show (WExpander "📁 Upload CSV File");;
  show (WFileUploader "Choose File");;
  match uploaded_file inp with
  | Some f => r ← alloc f; set_csv_data r
  | None => mret tt
  end;;
  (* If no data, do not show the rest *)
  s ← get_session;
  match csv_data s with
  | None => mret None
  | Some data =>
      d ← load data;
      converted ← lift (col ← getitem d "Timestamp"; to_datetime_series col);
      setitem_series data "Timestamp" converted;;
      d ← load data;
      let variables := tail (columns d) in
      (* VARIABLE SELECTOR: the option at the position picked, [None]
         when there is no option *)
      show (WExpander "📊 Select Variable");;
      show (WSelectbox "Variable" variables);;
      let selected_var := variables !! var_choice inp in
      (* DATE RANGE *)
      show (WExpander "🗓️ Date Range");;
      min_date ← lift (col ← getitem d "Timestamp"; date_method (time_min col));
      max_date ← lift (col ← getitem d "Timestamp"; date_method (time_max col));
      show (WDateInput "Date Range" min_date max_date);;
      let raw := default (DTuple [min_date; max_date]) (raw_date inp) in
      date_range ← lift
        match raw with
        | DTuple [base_start; base_end] => Ok (base_start, base_end)
        | DTuple (d0 :: _) => Ok (d0, d0)
        | DTuple [] => Raise IndexError
        | DSingle d0 => Ok (d0, d0)
        end;
      (* MONTH COMPARISON *)
      show (WExpander "📅 Compare Months");;
      month_options ← lift (col ← getitem d "Timestamp"; ts ← dt col;
                            Ok (unique (to_period_M_str ts)));
      show (WMultiselect "Select Months" month_options);;
      let compare_months := multiselect month_options (picked_months inp) in
      (* WEEK COMPARISON *)
      show (WExpander "📆 Compare Weeks");;
      week_options ← lift (col ← getitem d "Timestamp"; ts ← dt col;
                           Ok (unique (to_period_W_str ts)));
      show (WMultiselect "Select Weeks" week_options);;
      let compare_weeks := multiselect week_options (picked_weeks inp) in
      mret (Some (data, selected_var, date_range, compare_months,
                  compare_weeks))
  end.

Definition dashboard (inp : UserInput) : M unit :=
  setup_page;;
  render_navbar inp;;
  sidebar_out ← render_sidebar inp;
  match sidebar_out with
  | None => show (WWarning "Upload a CSV to begin.")
  | Some (data, selected_var, date_range, months, weeks) =>
      '(final_df, trend_plot) ←
         build_comparison_df data selected_var date_range months weeks;
      render_kpis final_df selected_var;;
      show (WMarkdown "<div class='section-title'>Data Preview</div>");;
      shown ← load final_df;
      show (WDataframe shown);;
      show (WPlotly trend_plot);;
      totals ← aggregate_by_period final_df selected_var;
      fig_tot ← px_chart BarChart totals "Period" selected_var None;
      show (WPlotly fig_tot)
  end.

Definition landing_page (inp : UserInput) : M unit :=
  show page_style;;
  show (WMarkdown "<div class='hero-title'>Energy Intelligence, Simplified</div>");;
  show (WMarkdown "<div class='hero-subtitle'>Explore clean dashboards, AI-driven insights, and automated processing to better understand and optimise your energy usage.</div>");;
  show (WButton "🚀 Go to Dashboard");;
  (if go_clicked inp
   then set_app_mode "dashboard";; raise RerunException
   else mret tt);;
  show (WMarkdown "<div class='value-header'>What We Offer</div>");;
  show (WMarkdown "<div class='value-box'>");;
  show (WMarkdown "<div class='value-box'>");;
  show (WMarkdown "<div class='value-box'>");;
  show (WMarkdown "---");;
  show (WMarkdown "<p style='text-align:center;color:#999;font-size:0.85rem;'>© 2025 Energy Intelligence Platform</p>").

Definition router (inp : UserInput) : M unit :=
  s ← get_session;
  match app_mode s with
  | None => set_app_mode "landing"
  | Some _ => mret tt
  end;;
  s ← get_session;
  match app_mode s with
  | Some mode =>
      if String.eqb mode "landing" then landing_page inp
      else if String.eqb mode "dashboard" then dashboard inp
      else mret tt
  | None => mret tt
  end.

(** The script: one run per interaction of the user. *)
Definition main (inp : UserInput) : M unit :=
  show (WPageConfig "Energy Intelligence");;
  router inp.

End App.


(** ** Vocabulary of the specification *)

(** The timestamp of a row, when it has one. *)
Definition row_time (r : Row) : option Z :=
  match cells r !! "Timestamp" with
  | Some (CTime t) => Some t
  | _ => None
  end.

(** A Measurement Table: a frame with a [Timestamp] column in which every
    row has a timestamp. *)
Definition measurement_table (df : DataFrame) : Prop :=
  "Timestamp" ∈ columns df ∧ Forall (fun r => is_Some (row_time r)) (rows df).

(** The [Period] label and the [AlignedX] coordinate of an aligned row. *)
Definition row_period (r : Row) : option string :=
  match cells r !! "Period" with
  | Some (CStr p) => Some p
  | _ => None
  end.

Definition row_aligned_x (r : Row) : option Z :=
  match cells r !! "AlignedX" with
  | Some (CNum x) => Some x
  | _ => None
  end.


(** The frame the session holds, if any. *)
Definition session_table (st : State) : option DataFrame :=
  r ← csv_data (session st); heap st !! r.

(** The subset of rows a comparison loop selects for the label [p], with
    the two columns it adds. *)
Definition selects (lbl : Z -> string) (p : string) (r : Row) : bool :=
  String.eqb (match row_time r with
              | Some t => lbl t
              | None => "NaT"%string
              end) p.

Definition align (coord : Z -> Z) (p : string) (r : Row) : Row :=
  set_cell "AlignedX" (set_cell "Period" r (Some (CStr p)))
           ((fun t => CNum (coord t)) <$> row_time r).

Definition aligned_subset (lbl : Z -> string) (coord : Z -> Z)
    (rs : list Row) (p : string) : list Row :=
  map (align coord p) (List.filter (selects lbl p) rs).

Definition aligned_columns (df : DataFrame) : list string :=
  add_column (add_column (columns df) "Period") "AlignedX".

(** Rows of a date-range selection: timestamps between the two midnights. *)
Definition in_range (lo hi : Z) (r : Row) : bool :=
  match row_time r with
  | Some t => (t >=? lo) && (t <=? hi)
  | None => false
  end.

(** The body shared by the month loop and the week loop. *)
Definition align_body (lbl : Z -> string) (coord : Z -> Z) (data : loc)
    (final_df : loc) (p : string) : M loc :=
  d ← load data;
  mask ← lift (col ← getitem d "Timestamp"; ts ← dt col;
               Ok (series_eq_str (period_str lbl ts) p));
  df_p ← getitem_mask data mask;
  setitem_scalar df_p "Period" (CStr p);;
  dp ← load df_p;
  days ← lift (col ← getitem dp "Timestamp"; ts ← dt col;
               Ok (dt_field coord ts));
  setitem_series df_p "AlignedX" days;;
  pd_concat final_df df_p.

(** The aligned table of a month or week comparison, and the chart
    request made from it. *)
Definition comparison_table (lbl : Z -> string) (coord : Z -> Z)
    (d : DataFrame) (ps : list string) : DataFrame :=
  mkDF (aligned_columns d) (flat_map (aligned_subset lbl coord (rows d)) ps).

Definition comparison_plot (final : DataFrame) (var : option string)
    (title : string) : Figure :=
  mkFigure LineChart final "AlignedX" var (Some "Period"%string) (Some title).

(** The aligned table of a date-range selection. *)
Definition date_in_bounds (d : Z) : Prop :=
  Calendar.INT64_MIN < Calendar.midnight d <= Calendar.INT64_MAX.

Definition range_table (d : DataFrame) (base_start base_end : Z) : DataFrame :=
  mkDF (add_column (columns d) "Period")
       (map (fun r => set_cell "Period" r
                        (Some (CStr (date_range_label base_start base_end))))
            (List.filter (in_range (Calendar.midnight base_start)
                                   (Calendar.midnight base_end))
                         (rows d))).







(** ** Sample data

    Three readings, not in chronological order: 30 January 2024 at 00:00,
    1 February at 12:00 and 31 January at 13:00. *)

Definition stamp (y m d hh mm : Z) : Z :=
  Calendar.midnight (Calendar.days_from_civil y m d)
  + (hh * 3600 + mm * 60) * 1000000000.

Definition reading (i : nat) (t : Z) (v : Z) : Row :=
  mkRow i (<["kWh" := CNum v]> (<["Timestamp" := CTime t]> ∅)).

Definition sample_table : DataFrame :=
  mkDF ["Timestamp"; "kWh"]%string
       [reading 0 (stamp 2024 1 30 0 0) 5;
        reading 1 (stamp 2024 2 1 12 0) 7;
        reading 2 (stamp 2024 1 31 13 0) 9].

Definition sample_state : State :=
  mkState [sample_table] (mkSession (Some 0%nat) (Some "dashboard"%string)) [].

Definition jan30 : Z := Calendar.days_from_civil 2024 1 30.
Definition jan31 : Z := Calendar.days_from_civil 2024 1 31.
Definition feb01 : Z := Calendar.days_from_civil 2024 2 1.

(** An aligned table in which period B appears before period A. *)
Definition period_row (i : nat) (p : string) (v : Z) : Row :=
  mkRow i (<["Period" := CStr p]> (<["kWh" := CNum v]> ∅)).

Definition two_period_table : DataFrame :=
  mkDF ["kWh"; "Period"]%string
       [period_row 0 "B" 5; period_row 1 "A" 10; period_row 2 "A" 20].


(** A CSV file with one reading, on 31 January 2024 at 13:00, a parser
    that reads its timestamp, and a file without a [Timestamp] column. *)
Definition csv_row (i : nat) (t : string) (v : Z) : Row :=
  mkRow i (<["kWh" := CNum v]> (<["Timestamp" := CStr t]> ∅)).

Definition one_reading_csv : DataFrame :=
  mkDF ["Timestamp"; "kWh"]%string [csv_row 0 "2024-01-31 13:00:00" 9].

Definition parse_sample (s : string) : option Z :=
  if String.eqb s "2024-01-31 13:00:00" then Some (stamp 2024 1 31 13 0)
  else None.

Definition no_timestamp_csv : DataFrame :=
  mkDF ["Time"; "kWh"]%string
       [mkRow 0 (<["kWh" := CNum 9]> (<["Time" := CStr "13:00"]> ∅))].

Definition garbled_csv : DataFrame :=
  mkDF ["Timestamp"; "kWh"]%string [csv_row 0 "yesterday-ish" 9].

Definition upload (f : DataFrame) : UserInput :=
  mkInput false false false (Some f) 0 None [] [].

Definition fresh_state : State :=
  mkState [] (mkSession None (Some "dashboard"%string)) [].

(** A CSV whose [Timestamp] column holds a string the parser rejects. *)
Definition unparsable (parse : string -> option Z) (f : DataFrame) : Prop :=
  Exists (fun r => exists s, cells r !! "Timestamp" = Some (CStr s) /\
                             parse s = None) (rows f).

(** A computation that leaves the first [n] frames of the store, the
    session and the page as they are, only allocates or writes above [n],
    and whose result, if any, satisfies [Q]. *)
Definition frame_safe {A} (n : nat) (Q : A -> Prop) (c : M A) : Prop :=
  forall st, (n <= length (heap st))%nat ->
    take n (heap (c st).2) = take n (heap st) /\
    (length (heap st) <= length (heap (c st).2))%nat /\
    session (c st).2 = session st /\
    ui (c st).2 = ui st /\
    match (c st).1 with
    | Ok a => Q a
    | Raise _ => True
    end.

(** ** Vocabulary of the further properties *)

(** The number a row holds for a variable, when it holds one. *)
Definition row_num (var : string) (r : Row) : option Z :=
  match cells r !! var with
  | Some (CNum n) => Some n
  | _ => None
  end.

(** A column of numbers, missing values allowed. *)
Definition numeric_column (var : string) (d : DataFrame) : Prop :=
  In var (columns d) /\
  Forall (fun r => cells r !! var = None \/
                   exists n, cells r !! var = Some (CNum n)) (rows d).

(** The four metrics of the KPI row. *)
Definition kpi_widgets (avg mx mn peak : MetricVal) : list Widget :=
  [WMetric "Average" avg; WMetric "Maximum" mx; WMetric "Baseload" mn;
   WMetric "Peak Occurred At" peak].

(** A store that holds the aligned table of the two periods. *)
Definition two_period_state : State :=
  mkState [two_period_table] (mkSession None None) [].



(** The [Timestamp] column of a frame, and the frame after
    [data["Timestamp"] = pd.to_datetime(data["Timestamp"])] has stored the
    converted cells [conv]. *)
Definition timestamp_col (d : DataFrame) : Series :=
  map (fun r => cells r !! "Timestamp") (rows d).

Definition with_timestamps (conv : Series) (d : DataFrame) : DataFrame :=
  mkDF (add_column (columns d) "Timestamp")
       (zip_with (set_cell "Timestamp") (rows d) conv).

(** A frame whose [Timestamp] column is a datetime column: every cell is
    a timestamp or missing. *)
Definition datetime_column (d : DataFrame) : Prop :=
  In "Timestamp"%string (columns d) /\
  Forall (fun r => cells r !! "Timestamp" = None \/
                   exists t, cells r !! "Timestamp" = Some (CTime t))
         (rows d).

Definition sidebar_title : Widget :=
  WMarkdown "<h2 class='sidebar-title'>Dashboard Options</h2>".

(** A computation that writes neither to the store nor to the session. *)
Definition read_only {A} (c : M A) : Prop :=
  forall st, heap (c st).2 = heap st /\ session (c st).2 = session st.

(** A computation that only moves the session along the relation [R]. *)
Definition session_safe {A} (R : Session -> Session -> Prop) (c : M A) : Prop :=
  forall st, R (session st) (session (c st).2).

(** The navigation mode is kept or set to one of the two pages. *)
Definition mode_step (s s' : Session) : Prop :=
  app_mode s' = app_mode s \/
  app_mode s' = Some "landing"%string \/
  app_mode s' = Some "dashboard"%string.

(** The table of the session is kept. *)
Definition same_table (s s' : Session) : Prop := csv_data s' = csv_data s.

(** The widgets of the sidebar: the title and the file uploader, then,
    for a table, the variable selector, the date range and the two
    comparison selectors. *)
Definition sidebar_upload : list Widget :=
  [sidebar_title; WExpander "📁 Upload CSV File"; WFileUploader "Choose File"].

Definition sidebar_selectors (variables : list string) (min_date max_date : Z)
    (month_options week_options : list string) : list Widget :=
  [WExpander "📊 Select Variable"; WSelectbox "Variable" variables;
   WExpander "🗓️ Date Range"; WDateInput "Date Range" min_date max_date;
   WExpander "📅 Compare Months"; WMultiselect "Select Months" month_options;
   WExpander "📆 Compare Weeks"; WMultiselect "Select Weeks" week_options].

(** The widgets of the dashboard up to the point where it needs a table:
    the header with its two buttons, then the sidebar with its uploader. *)
Definition dashboard_header : list Widget :=
  [WPageConfig "Energy Intelligence Dashboard"; page_style;
   WMarkdown "<div class='nav-title'>Energy Intelligence Dashboard</div>";
   WButton "↻"; WButton "←";
   WMarkdown "<hr style='margin-top:0px;'>"] ++ sidebar_upload.

Definition idle : UserInput := mkInput false false false None 0 None [] [].

(** * Properties *)

(** ** Calendar facts *)

Section CalendarFacts.
Import Calendar.

Lemma date_of_midnight d : date_of (midnight d) = d.
Proof.
  unfold date_of, midnight, NS_PER_DAY. apply Z.div_mul. lia.
Qed.

Lemma midnight_le_iff t d : midnight d <= t <-> d <= date_of t.
Proof.
  unfold date_of, midnight, NS_PER_DAY.
  split; intros H.
  - apply Z.div_le_lower_bound; lia.
  - Z.to_euclidean_division_equations; lia.
Qed.

Lemma date_of_bounds t :
  midnight (date_of t) <= t < midnight (date_of t + 1).
Proof.
  unfold date_of, midnight, NS_PER_DAY.
  Z.to_euclidean_division_equations; lia.
Qed.

Lemma weekday_of_day_range d : 0 <= weekday_of_day d <= 6.
Proof.
  unfold weekday_of_day.
  pose proof (Z.mod_pos_bound (d + 3) 7). lia.
Qed.

Lemma week_start_is_monday d : weekday_of_day (week_start d) = 0.
Proof.
  unfold week_start, weekday_of_day.
  Z.to_euclidean_division_equations; lia.
Qed.

Lemma week_contains d :
  week_start d <= d <= week_end d /\ d = week_start d + weekday_of_day d.
Proof.
  unfold week_end, week_start.
  pose proof (weekday_of_day_range d). lia.
Qed.

Lemma day_of_day_range d : 1 <= day_of_day d <= 31.
Proof.
  unfold day_of_day, civil_from_days. cbn [snd].
  set (z := d + 719468).
  set (doe := z - z / 146097 * 146097).
  assert (Hdoe : 0 <= doe <= 146096)
    by (subst doe; Z.to_euclidean_division_equations; lia).
  clearbody doe.
  set (yoe := (doe - doe / 1460 + doe / 36524 - doe / 146096) / 365).
  set (doy := doe - (365 * yoe + yoe / 4 - yoe / 100)).
  assert (Hdoy : 0 <= doy <= 365)
    by (subst doy yoe; Z.to_euclidean_division_equations; lia).
  clearbody doy.
  Z.to_euclidean_division_equations; lia.
Qed.

Lemma month_of_day_range d : 1 <= month_of_day d <= 12.
Proof.
  unfold month_of_day, civil_from_days. cbn [fst snd].
  set (z := d + 719468).
  set (doe := z - z / 146097 * 146097).
  assert (Hdoe : 0 <= doe <= 146096)
    by (subst doe; Z.to_euclidean_division_equations; lia).
  clearbody doe.
  set (yoe := (doe - doe / 1460 + doe / 36524 - doe / 146096) / 365).
  set (doy := doe - (365 * yoe + yoe / 4 - yoe / 100)).
  assert (Hdoy : 0 <= doy <= 365)
    by (subst doy yoe; Z.to_euclidean_division_equations; lia).
  clearbody doy.
  set (mp := (5 * doy + 2) / 153).
  assert (Hmp : 0 <= mp <= 11)
    by (subst mp; Z.to_euclidean_division_equations; lia).
  destruct (mp <? 10) eqn:E; [apply Z.ltb_lt in E | apply Z.ltb_ge in E]; lia.
Qed.

End CalendarFacts.

(** ** Running computations *)

Lemma bind_ok {A B} (m : M A) (k : A -> M B) st a st' :
  m st = (Ok a, st') -> (m ≫= k) st = k a st'.
Proof. intros H. unfold mbind, M_bind. by rewrite H. Qed.

Lemma bind_raise {A B} (m : M A) (k : A -> M B) st e st' :
  m st = (Raise e, st') -> (m ≫= k) st = (Raise e, st').
Proof. intros H. unfold mbind, M_bind. by rewrite H. Qed.

Lemma load_run st r df : heap st !! r = Some df -> load r st = (Ok df, st).
Proof. intros H. unfold load. by rewrite H. Qed.

Lemma lift_run {A} (o : Outcome A) st : lift o st = (o, st).
Proof. reflexivity. Qed.

Lemma lookup_snoc {A} (l : list A) x : (l ++ [x]) !! length l = Some x.
Proof. by apply list_lookup_middle. Qed.

Lemma insert_snoc {A} (l : list A) x y : <[length l := y]> (l ++ [x]) = l ++ [y].
Proof.
  rewrite insert_app_r_alt by lia. by rewrite Nat.sub_diag.
Qed.

Lemma getitem_mask_run st r df mask :
  heap st !! r = Some df ->
  getitem_mask r mask st =
    (Ok (length (heap st)),
     mkState (heap st ++ [mkDF (columns df) (mask_rows (rows df) mask)])
             (session st) (ui st)).
Proof.
  intros H. unfold getitem_mask.
  by rewrite (bind_ok _ _ _ _ _ (load_run _ _ _ H)).
Qed.

Lemma df_copy_run st r df :
  heap st !! r = Some df ->
  df_copy r st =
    (Ok (length (heap st)), mkState (heap st ++ [df]) (session st) (ui st)).
Proof.
  intros H. unfold df_copy.
  by rewrite (bind_ok _ _ _ _ _ (load_run _ _ _ H)).
Qed.

Lemma setitem_scalar_run st r df c v :
  heap st !! r = Some df ->
  setitem_scalar r c v st =
    (Ok tt,
     mkState (<[r := mkDF (add_column (columns df) c)
                          (map (fun row => set_cell c row (Some v)) (rows df))]>
                (heap st))
             (session st) (ui st)).
Proof.
  intros H. unfold setitem_scalar.
  by rewrite (bind_ok _ _ _ _ _ (load_run _ _ _ H)).
Qed.

Lemma setitem_series_run st r df c s :
  heap st !! r = Some df ->
  setitem_series r c s st =
    (Ok tt,
     mkState (<[r := mkDF (add_column (columns df) c)
                          (zip_with (set_cell c) (rows df) s)]> (heap st))
             (session st) (ui st)).
Proof.
  intros H. unfold setitem_series.
  by rewrite (bind_ok _ _ _ _ _ (load_run _ _ _ H)).
Qed.

Lemma pd_concat_run st ra rb a b :
  heap st !! ra = Some a -> heap st !! rb = Some b ->
  pd_concat ra rb st =
    (Ok (length (heap st)),
     mkState (heap st ++ [concat_frames a b]) (session st) (ui st)).
Proof.
  intros Ha Hb. unfold pd_concat.
  rewrite (bind_ok _ _ _ _ _ (load_run _ _ _ Ha)).
  by rewrite (bind_ok _ _ _ _ _ (load_run _ _ _ Hb)).
Qed.

(** Reading a run backwards. *)
Lemma bind_inv {A B} (m : M A) (k : A -> M B) st b st' :
  (m ≫= k) st = (Ok b, st') ->
  exists a s1, m st = (Ok a, s1) /\ k a s1 = (Ok b, st').
Proof.
  unfold mbind, M_bind. destruct (m st) as [[a|e] s1]; [eauto|done].
Qed.

Lemma lift_inv {A} (o : Outcome A) st a s1 :
  lift o st = (Ok a, s1) -> o = Ok a /\ s1 = st.
Proof. by intros [= -> ->]. Qed.

Lemma load_inv r st d s1 :
  load r st = (Ok d, s1) -> heap st !! r = Some d /\ s1 = st.
Proof.
  unfold load. destruct (heap st !! r); [|done]. by intros [= -> ->].
Qed.

Lemma outcome_bind_inv {A B} (o : Outcome A) (k : A -> Outcome B) b :
  o ≫= k = Ok b -> exists a, o = Ok a /\ k a = Ok b.
Proof. destruct o as [a|e]; [eauto|done]. Qed.

Lemma getitem_inv d c col :
  getitem d c = Ok col ->
  In c (columns d) /\ col = map (fun r => cells r !! c) (rows d).
Proof.
  unfold getitem, has_column. case_bool_decide as Hc; [|done].
  intros [= <-]. split; [by apply list_elem_of_In|done].
Qed.

(** ** Lists, masks and series *)


Lemma mapM_length {A B} (f : A -> Outcome B) (l : list A) bs :
  mapM f l = Ok bs -> length bs = length l.
Proof.
  revert bs. induction l as [|x l IH]; intros bs; cbn [mapM].
  - by intros [= <-].
  - destruct (f x) as [b|e]; cbn; [|done].
    destruct (mapM f l) as [bs'|e]; cbn; [|done].
    intros [= <-]. cbn. f_equal. by apply IH.
Qed.

Lemma mask_rows_map (p : Row -> bool) (rs : list Row) :
  mask_rows rs (map p rs) = List.filter p rs.
Proof.
  induction rs as [|r rs IH]; [done|].
  cbn. destruct (p r); by rewrite IH.
Qed.

Lemma zip_with_map_self {A B C} (f : A -> B -> C) (g : A -> B) (l : list A) :
  zip_with f l (map g l) = map (fun x => f x (g x)) l.
Proof. induction l as [|x l IH]; [done|]. cbn. by rewrite IH. Qed.

Lemma has_column_true df c : c ∈ columns df -> has_column df c = true.
Proof. intros H. unfold has_column. by apply bool_decide_eq_true. Qed.

Lemma has_column_false df c : c ∉ columns df -> has_column df c = false.
Proof. intros H. unfold has_column. by apply bool_decide_eq_false. Qed.

Lemma elem_of_add_column cols c x :
  x ∈ add_column cols c <-> x ∈ cols ∨ x = c.
Proof.
  unfold add_column. case_bool_decide as Hc.
  - split; [by left|]. intros [?| ->]; done.
  - rewrite elem_of_app, list_elem_of_singleton. done.
Qed.

Lemma row_time_set_cell c r v :
  c ≠ "Timestamp"%string -> row_time (set_cell c r v) = row_time r.
Proof.
  intros Hc. unfold row_time, set_cell. cbn [cells].
  destruct v; by rewrite ?lookup_insert_ne, ?lookup_delete_ne.
Qed.

(** The timestamps of a measurement table, as the [.dt] accessor and the
    comparisons see them. *)
Lemma getitem_timestamp df :
  "Timestamp" ∈ columns df ->
  getitem df "Timestamp" = Ok (map (fun r => cells r !! "Timestamp") (rows df)).
Proof. intros H. unfold getitem. by rewrite has_column_true. Qed.

Lemma dt_timestamps (rs : list Row) :
  Forall (fun r => is_Some (row_time r)) rs ->
  dt (map (fun r => cells r !! "Timestamp") rs) = Ok (map row_time rs).
Proof.
  unfold dt. induction 1 as [|r rs [t Ht] _ IH]; [done|].
  cbn [map mapM]. rewrite IH. unfold row_time in *.
  destruct (cells r !! "Timestamp") as [[| |]|]; done.
Qed.

Lemma series_cmp_timestamps cmp (rs : list Row) t0 :
  Forall (fun r => is_Some (row_time r)) rs ->
  series_cmp cmp (map (fun r => cells r !! "Timestamp") rs) t0 =
    Ok (map (fun r => match row_time r with
                      | Some t => cmp t t0
                      | None => false
                      end) rs).
Proof.
  unfold series_cmp. induction 1 as [|r rs [t Ht] _ IH]; [done|].
  cbn [map mapM]. rewrite IH. unfold row_time in *.
  destruct (cells r !! "Timestamp") as [[| |]|]; done.
Qed.

(** ** Frame rules: what a computation leaves untouched *)

Lemma frame_weaken {A} n (Q R : A -> Prop) (c : M A) :
  (forall a, Q a -> R a) -> frame_safe n Q c -> frame_safe n R c.
Proof.
  intros HQR Hc st Hn. destruct (Hc st Hn) as (H1 & H2 & H3 & H4 & H5).
  repeat split; try done. destruct (c st).1; auto.
Qed.

Lemma frame_bind {A B} n (Q : A -> Prop) (R : B -> Prop) (m : M A) (k : A -> M B) :
  frame_safe n Q m -> (forall a, Q a -> frame_safe n R (k a)) ->
  frame_safe n R (m ≫= k).
Proof.
  intros Hm Hk st Hn. destruct (Hm st Hn) as (H1 & H2 & H3 & H4 & H5).
  unfold mbind, M_bind. destruct (m st) as [[a|e] st1]; cbn in *.
  - destruct (Hk a H5 st1) as (K1 & K2 & K3 & K4 & K5); [lia|].
    repeat split; try congruence; try lia; done.
  - done.
Qed.

Lemma frame_ret {A} n (Q : A -> Prop) (a : A) : Q a -> frame_safe n Q (mret a).
Proof. intros Ha st Hn. by cbn. Qed.

Lemma frame_lift {A} n (o : Outcome A) : frame_safe n (fun _ => True) (lift o).
Proof. intros st Hn. cbn. repeat split; try done. by destruct o. Qed.

Lemma frame_raise {A} n (Q : A -> Prop) e : frame_safe n Q (raise e).
Proof. intros st Hn. by cbn. Qed.

Lemma frame_load n r : frame_safe n (fun _ => True) (load r).
Proof.
  intros st Hn. unfold load. by destruct (heap st !! r).
Qed.

Lemma frame_alloc n df : frame_safe n (fun r => (n <= r)%nat) (alloc df).
Proof.
  intros st Hn. unfold alloc. cbn.
  rewrite take_app_le by done. rewrite length_app. cbn.
  repeat split; try done; lia.
Qed.

Lemma frame_store n r df :
  (n <= r)%nat -> frame_safe n (fun _ => True) (store r df).
Proof.
  intros Hr st Hn. unfold store. cbn.
  rewrite take_insert_ge by done. rewrite length_insert. done.
Qed.

Lemma frame_for_each {A B} n (Q : A -> Prop) (l : list B) (a : A)
    (body : A -> B -> M A) :
  (forall a b, Q a -> frame_safe n Q (body a b)) -> Q a ->
  frame_safe n Q (for_each l a body).
Proof.
  intros Hbody. revert a. induction l as [|b l IH]; intros a Ha; cbn [for_each].
  - by apply frame_ret.
  - eapply frame_bind; [by apply Hbody|]. intros a' Ha'. by apply IH.
Qed.

Lemma frame_getitem_mask n r mask :
  frame_safe n (fun r' => (n <= r')%nat) (getitem_mask r mask).
Proof.
  unfold getitem_mask. eapply frame_bind; [apply frame_load|].
  intros df _. apply frame_alloc.
Qed.

Lemma frame_df_copy n r : frame_safe n (fun r' => (n <= r')%nat) (df_copy r).
Proof.
  unfold df_copy. eapply frame_bind; [apply frame_load|].
  intros df _. apply frame_alloc.
Qed.

Lemma frame_setitem_scalar n r c v :
  (n <= r)%nat -> frame_safe n (fun _ => True) (setitem_scalar r c v).
Proof.
  intros Hr. unfold setitem_scalar. eapply frame_bind; [apply frame_load|].
  intros df _. by apply frame_store.
Qed.

Lemma frame_setitem_series n r c s :
  (n <= r)%nat -> frame_safe n (fun _ => True) (setitem_series r c s).
Proof.
  intros Hr. unfold setitem_series. eapply frame_bind; [apply frame_load|].
  intros df _. by apply frame_store.
Qed.

Lemma frame_pd_concat n ra rb :
  frame_safe n (fun r' => (n <= r')%nat) (pd_concat ra rb).
Proof.
  unfold pd_concat. eapply frame_bind; [apply frame_load|]. intros a _.
  eapply frame_bind; [apply frame_load|]. intros b _. apply frame_alloc.
Qed.

Lemma frame_px_chart n k r x y color :
  frame_safe n (fun _ => True) (px_chart k r x y color).
Proof.
  unfold px_chart. eapply frame_bind; [apply frame_load|]. intros df _.
  destruct (_ && _); [by apply frame_ret | apply frame_raise].
Qed.

Lemma frame_align_body n lbl coord data final_df p :
  frame_safe n (fun r' => (n <= r')%nat) (align_body lbl coord data final_df p).
Proof.
  unfold align_body.
  eapply frame_bind; [apply frame_load|]. intros d _.
  eapply frame_bind; [apply frame_lift|]. intros mask _.
  eapply frame_bind; [apply frame_getitem_mask|]. intros df_p Hp.
  eapply frame_bind; [by apply frame_setitem_scalar|]. intros _ _.
  eapply frame_bind; [apply frame_load|]. intros dp _.
  eapply frame_bind; [apply frame_lift|]. intros days _.
  eapply frame_bind; [by apply frame_setitem_series|]. intros _ _.
  apply frame_pd_concat.
Qed.

Lemma frame_build_comparison_df n data selected_var date_range months weeks :
  frame_safe n (fun _ => True)
    (build_comparison_df data selected_var date_range months weeks).
Proof.
  unfold build_comparison_df. destruct date_range as [base_start base_end].
  eapply frame_bind; [apply frame_alloc|]. intros f0 Hf0.
  destruct months as [|m ms]; [destruct weeks as [|w ws]|].
  - eapply frame_bind; [apply frame_load|]. intros d _.
    eapply frame_bind; [apply frame_lift|]. intros mask _.
    eapply frame_bind; [apply frame_getitem_mask|]. intros sel _.
    eapply frame_bind; [apply frame_df_copy|]. intros final_df Hf.
    eapply frame_bind; [by apply frame_setitem_scalar|]. intros _ _.
    eapply frame_bind; [apply frame_px_chart|]. intros fig _.
    by apply frame_ret.
  - eapply frame_bind.
    + apply (frame_for_each n (fun r' => (n <= r')%nat)); [|done].
      intros a b Ha. apply (frame_align_body n Calendar.week_label Calendar.weekday).
    + intros final_df _.
      eapply frame_bind; [apply frame_px_chart|]. intros fig _.
      by apply frame_ret.
  - eapply frame_bind.
    + apply (frame_for_each n (fun r' => (n <= r')%nat)); [|done].
      intros a b Ha. apply (frame_align_body n Calendar.month_label Calendar.day_of_month).
    + intros final_df _.
      eapply frame_bind; [apply frame_px_chart|]. intros fig _.
      by apply frame_ret.
Qed.

(** ** What one turn of a comparison loop does *)

Lemma selection_mask lbl p d :
  measurement_table d ->
  (col ← getitem d "Timestamp"; ts ← dt col;
   Ok (series_eq_str (period_str lbl ts) p)) =
  Ok (map (selects lbl p) (rows d)).
Proof.
  intros [Hc Hr]. rewrite (getitem_timestamp _ Hc). cbn [mbind Outcome_bind].
  rewrite (dt_timestamps _ Hr). cbn [mbind Outcome_bind].
  unfold series_eq_str, period_str. by rewrite !map_map.
Qed.

Lemma coordinate_series coord cols (rs : list Row) :
  "Timestamp" ∈ cols ->
  Forall (fun r => is_Some (row_time r)) rs ->
  (col ← getitem (mkDF cols rs) "Timestamp"; ts ← dt col;
   Ok (dt_field coord ts)) =
  Ok (map (fun r => (fun t => CNum (coord t)) <$> row_time r) rs).
Proof.
  intros Hc Hr. rewrite getitem_timestamp by done. cbn [mbind Outcome_bind rows].
  rewrite (dt_timestamps _ Hr). cbn [mbind Outcome_bind].
  unfold dt_field. by rewrite map_map.
Qed.

Lemma Forall_filter_bool {A} (P : A -> Prop) (f : A -> bool) (l : list A) :
  Forall P l -> Forall P (List.filter f l).
Proof.
  intros H. apply List.Forall_forall. intros x Hx.
  apply List.filter_In in Hx as [Hx _].
  by apply (proj1 (List.Forall_forall P l) H).
Qed.

Lemma align_map coord p (l : list Row) :
  map (fun x => set_cell "AlignedX" (set_cell "Period" x (Some (CStr p)))
                 ((fun t => CNum (coord t)) <$>
                  row_time (set_cell "Period" x (Some (CStr p))))) l =
  map (align coord p) l.
Proof.
  apply map_ext. intros r. unfold align. by rewrite row_time_set_cell.
Qed.

Lemma align_body_run lbl coord st data final_df p d acc :
  heap st !! data = Some d ->
  heap st !! final_df = Some acc ->
  measurement_table d ->
  let sub := mkDF (aligned_columns d) (aligned_subset lbl coord (rows d) p) in
  align_body lbl coord data final_df p st =
    (Ok (S (length (heap st))),
     mkState (heap st ++ [sub; concat_frames acc sub]) (session st) (ui st)).
Proof.
  intros Hd Hf Hm sub. unfold align_body.
  rewrite (bind_ok _ _ _ _ _ (load_run _ _ _ Hd)).
  rewrite (selection_mask _ _ _ Hm), (bind_ok _ _ _ _ _ (lift_run _ _)).
  rewrite (bind_ok _ _ _ _ _ (getitem_mask_run _ _ _ _ Hd)).
  rewrite mask_rows_map.
  erewrite bind_ok; [|apply setitem_scalar_run; cbn [heap]; apply lookup_snoc].
  cbn [heap session ui columns rows]. rewrite insert_snoc.
  erewrite bind_ok; [|apply load_run; cbn [heap]; apply lookup_snoc].
  rewrite (coordinate_series coord); cycle 1.
  { apply elem_of_add_column. left. apply Hm. }
  { apply Forall_map. apply Forall_filter_bool.
    eapply Forall_impl; [apply Hm|]. intros r Hr. cbn.
    by rewrite row_time_set_cell. }
  rewrite (bind_ok _ _ _ _ _ (lift_run _ _)).
  erewrite bind_ok; [|apply setitem_series_run; cbn [heap]; apply lookup_snoc].
  cbn [heap session ui columns rows]. rewrite insert_snoc.
  rewrite zip_with_map_self, map_map, align_map.
  erewrite pd_concat_run; cycle 1.
  { cbn [heap]. by apply lookup_app_l_Some. }
  { cbn [heap]. apply lookup_snoc. }
  cbn [heap session ui]. rewrite length_app, Nat.add_1_r, <- app_assoc.
  done.
Qed.

Lemma align_loop_run lbl coord data d ps :
  measurement_table d ->
  forall st final_df acc,
  heap st !! data = Some d ->
  heap st !! final_df = Some acc ->
  exists f' st',
    for_each ps final_df (align_body lbl coord data) st = (Ok f', st') /\
    heap st' !! f' =
      Some (fold_left concat_frames
              (map (fun p => mkDF (aligned_columns d)
                                  (aligned_subset lbl coord (rows d) p)) ps)
              acc) /\
    heap st' !! data = Some d /\
    session st' = session st /\ ui st' = ui st /\
    (final_df <= f')%nat.
Proof.
  intros Hm. induction ps as [|p ps IH]; intros st final_df acc Hd Hf.
  - exists final_df, st. by cbn.
  - cbn [for_each map fold_left].
    erewrite bind_ok; [|by eapply align_body_run].
    set (sub := mkDF _ _).
    edestruct (IH (mkState (heap st ++ [sub; concat_frames acc sub])
                           (session st) (ui st))
                  (S (length (heap st))) (concat_frames acc sub))
      as (f' & st' & Hrun & Hf' & Hd' & Hs & Hu & Hle).
    + cbn [heap]. by apply lookup_app_l_Some.
    + cbn [heap]. rewrite (lookup_app_r (heap st)) by lia.
      by replace (S (length (heap st)) - length (heap st))%nat with 1%nat by lia.
    + exists f', st'. rewrite Hrun.
      apply lookup_lt_Some in Hf. repeat split; try done. lia.
Qed.

Lemma fold_concat_rows (fs : list DataFrame) acc :
  rows (fold_left concat_frames fs acc) = rows acc ++ concat (map rows fs).
Proof.
  revert acc. induction fs as [|f fs IH]; intros acc; cbn.
  - by rewrite app_nil_r.
  - rewrite IH. cbn. by rewrite app_assoc.
Qed.

Lemma filter_not_elem_of_self (cs : list string) :
  filter (fun c => c ∉ cs) cs = [].
Proof.
  assert (H : forall l, Forall (fun c => c ∈ cs) l ->
                        filter (fun c => c ∉ cs) l = []).
  { induction 1 as [|c l Hc _ IH]; [done|].
    rewrite filter_cons_False by naive_solver. done. }
  apply H. by apply Forall_forall.
Qed.

Lemma filter_not_elem_of_nil (cs : list string) :
  filter (fun c => c ∉ []) cs = cs.
Proof.
  induction cs as [|c cs IH]; [done|].
  rewrite filter_cons_True by apply not_elem_of_nil. by rewrite IH.
Qed.

Lemma fold_concat_columns cs (fs : list DataFrame) acc :
  Forall (fun f => columns f = cs) fs ->
  columns acc = cs ->
  columns (fold_left concat_frames fs acc) = cs.
Proof.
  intros H. revert acc. induction H as [|f fs Hf _ IH]; intros acc Hacc; [done|].
  cbn [fold_left]. apply IH. cbn. rewrite Hacc, Hf.
  by rewrite filter_not_elem_of_self, app_nil_r.
Qed.

Lemma fold_concat_columns_first cs (f : DataFrame) (fs : list DataFrame) :
  Forall (fun f => columns f = cs) (f :: fs) ->
  columns (fold_left concat_frames (f :: fs) (mkDF [] [])) = cs.
Proof.
  intros H. inversion H as [|? ? Hf Hfs]; subst. cbn [fold_left].
  apply fold_concat_columns; [done|]. cbn.
  by rewrite filter_not_elem_of_nil.
Qed.

(** ** What [build_comparison_df] returns on a measurement table *)

Lemma alloc_run st df :
  alloc df st =
    (Ok (length (heap st)), mkState (heap st ++ [df]) (session st) (ui st)).
Proof. reflexivity. Qed.

Lemma px_chart_run st k r df x y color :
  heap st !! r = Some df ->
  px_chart k r x y color st =
    (if has_column df x && opt_has_column df y && opt_has_column df color
     then Ok (mkFigure k df x y color None) else Raise ValueError, st).
Proof.
  intros H. unfold px_chart. rewrite (bind_ok _ _ _ _ _ (load_run _ _ _ H)).
  by destruct (_ && _).
Qed.

Lemma comparison_table_fold lbl coord d p ps :
  fold_left concat_frames
    (map (fun p => mkDF (aligned_columns d)
                        (aligned_subset lbl coord (rows d) p)) (p :: ps))
    (mkDF [] []) =
  comparison_table lbl coord d (p :: ps).
Proof.
  set (fs := map _ _).
  assert (Hc : columns (fold_left concat_frames fs (mkDF [] [])) = aligned_columns d).
  { assert (HF : Forall (fun f => columns f = aligned_columns d) fs).
    { subst fs. apply Forall_map. by apply Forall_forall. }
    subst fs. cbn [map] in *. by apply fold_concat_columns_first. }
  assert (Hr : rows (fold_left concat_frames fs (mkDF [] [])) =
               flat_map (aligned_subset lbl coord (rows d)) (p :: ps)).
  { rewrite fold_concat_rows. subst fs. cbn [rows app]. rewrite map_map.
    cbn [rows]. by rewrite flat_map_concat_map. }
  destruct (fold_left concat_frames fs (mkDF [] [])) as [cs rs].
  cbn in Hc, Hr. unfold comparison_table. by rewrite Hc, Hr.
Qed.

Lemma elem_of_aligned_columns d x :
  x ∈ aligned_columns d <->
  x ∈ columns d ∨ x = "Period"%string ∨ x = "AlignedX"%string.
Proof.
  unfold aligned_columns. rewrite !elem_of_add_column. tauto.
Qed.

Lemma comparison_branch_run lbl coord title st data d var p ps :
  heap st !! data = Some d ->
  measurement_table d ->
  let final := comparison_table lbl coord d (p :: ps) in
  exists f st',
    (final_df ← new_frame;
     final_df ← for_each (p :: ps) final_df (align_body lbl coord data);
     trend_plot ← px_chart LineChart final_df "AlignedX" var
                           (Some "Period"%string);
     mret (final_df, update_layout trend_plot title)) st =
      (if opt_has_column final var
       then Ok (f, comparison_plot final var title)
       else Raise ValueError, st') /\
    heap st' !! f = Some final /\
    heap st' !! data = Some d /\
    session st' = session st /\ ui st' = ui st /\
    (length (heap st) <= f)%nat.
Proof.
  intros Hd Hm final. unfold new_frame.
  rewrite (bind_ok _ _ _ _ _ (alloc_run _ _)).
  edestruct (align_loop_run lbl coord data d (p :: ps) Hm
               (mkState (heap st ++ [mkDF [] []]) (session st) (ui st))
               (length (heap st)) (mkDF [] []))
    as (f & st' & Hrun & Hf & Hd' & Hs & Hu & Hle).
  { cbn [heap]. by apply lookup_app_l_Some. }
  { cbn [heap]. apply lookup_snoc. }
  rewrite comparison_table_fold in Hf. fold final in Hf.
  assert (Hx : has_column final "AlignedX" = true).
  { apply has_column_true. apply elem_of_aligned_columns. auto. }
  assert (Hp : opt_has_column final (Some "Period"%string) = true).
  { apply has_column_true. apply elem_of_aligned_columns. auto. }
  exists f, st'. rewrite (bind_ok _ _ _ _ _ Hrun).
  unfold mbind, M_bind. rewrite (px_chart_run _ _ _ _ _ _ _ Hf).
  rewrite Hx, Hp, andb_true_l, andb_true_r.
  repeat split; try done.
  by destruct (opt_has_column final var).
Qed.

Lemma month_branch_run st data d var date_range m ms weeks :
  heap st !! data = Some d ->
  measurement_table d ->
  let final :=
    comparison_table Calendar.month_label Calendar.day_of_month d (m :: ms) in
  exists f st',
    build_comparison_df data var date_range (m :: ms) weeks st =
      (if opt_has_column final var
       then Ok (f, comparison_plot final var "Day of Month")
       else Raise ValueError, st') /\
    heap st' !! f = Some final /\
    heap st' !! data = Some d /\
    session st' = session st /\ ui st' = ui st /\
    (length (heap st) <= f)%nat.
Proof.
  intros Hd Hm. destruct date_range as [base_start base_end].
  apply (comparison_branch_run Calendar.month_label Calendar.day_of_month
           "Day of Month" st data d var m ms Hd Hm).
Qed.

Lemma week_branch_run st data d var date_range w ws :
  heap st !! data = Some d ->
  measurement_table d ->
  let final :=
    comparison_table Calendar.week_label Calendar.weekday d (w :: ws) in
  exists f st',
    build_comparison_df data var date_range [] (w :: ws) st =
      (if opt_has_column final var
       then Ok (f, comparison_plot final var "Day of Week")
       else Raise ValueError, st') /\
    heap st' !! f = Some final /\
    heap st' !! data = Some d /\
    session st' = session st /\ ui st' = ui st /\
    (length (heap st) <= f)%nat.
Proof.
  intros Hd Hm. destruct date_range as [base_start base_end].
  apply (comparison_branch_run Calendar.week_label Calendar.weekday
           "Day of Week" st data d var w ws Hd Hm).
Qed.

Lemma to_datetime_date_ok d :
  date_in_bounds d -> to_datetime_date d = Ok (Calendar.midnight d).
Proof.
  intros [H1 H2]. unfold to_datetime_date.
  apply Z.ltb_lt in H1. apply Z.leb_le in H2. by rewrite H1, H2.
Qed.

Lemma range_mask_ok d base_start base_end :
  measurement_table d ->
  date_in_bounds base_start -> date_in_bounds base_end ->
  range_mask d base_start base_end =
    Ok (map (in_range (Calendar.midnight base_start)
                      (Calendar.midnight base_end)) (rows d)).
Proof.
  intros [Hc Hr] Hs He. unfold range_mask.
  rewrite (getitem_timestamp _ Hc). cbn [mbind Outcome_bind].
  rewrite (to_datetime_date_ok _ Hs), (to_datetime_date_ok _ He).
  cbn [mbind Outcome_bind].
  rewrite !(series_cmp_timestamps _ _ _ Hr). cbn [mbind Outcome_bind].
  f_equal. unfold mask_and. clear Hr.
  induction (rows d) as [|r rs IH]; [done|].
  cbn [map zip_with]. rewrite IH. f_equal.
  unfold in_range. by destruct (row_time r).
Qed.

Lemma range_branch_run st data d var base_start base_end :
  heap st !! data = Some d ->
  measurement_table d ->
  date_in_bounds base_start -> date_in_bounds base_end ->
  let final := range_table d base_start base_end in
  exists f st',
    build_comparison_df data var (base_start, base_end) [] [] st =
      (if opt_has_column final var
       then Ok (f, mkFigure LineChart final "Timestamp" var
                            (Some "Period"%string) None)
       else Raise ValueError, st') /\
    heap st' !! f = Some final /\
    heap st' !! data = Some d /\
    session st' = session st /\ ui st' = ui st /\
    (length (heap st) <= f)%nat.
Proof.
  intros Hd Hm Hs He final.
  unfold build_comparison_df, new_frame.
  rewrite (bind_ok _ _ _ _ _ (alloc_run _ _)).
  set (h1 := heap st ++ [mkDF [] []]).
  assert (Hd1 : h1 !! data = Some d) by by apply lookup_app_l_Some.
  erewrite bind_ok; [|by apply load_run].
  rewrite (range_mask_ok _ _ _ Hm Hs He), (bind_ok _ _ _ _ _ (lift_run _ _)).
  erewrite bind_ok; [|by apply getitem_mask_run].
  rewrite mask_rows_map. cbn [heap session ui].
  set (sel := mkDF _ _).
  erewrite bind_ok; [|apply df_copy_run; cbn [heap]; apply lookup_snoc].
  cbn [heap session ui].
  erewrite bind_ok; [|apply setitem_scalar_run; cbn [heap]; apply lookup_snoc].
  cbn [heap session ui]. rewrite insert_snoc.
  subst sel. cbn [columns rows]. fold (range_table d base_start base_end).
  fold final. set (sel := mkDF _ _).
  assert (Hf : ((h1 ++ [sel]) ++ [final]) !! length (h1 ++ [sel]) = Some final)
    by apply lookup_snoc.
  assert (Ht : has_column final "Timestamp" = true).
  { apply has_column_true. apply elem_of_add_column. left. apply Hm. }
  assert (Hp : opt_has_column final (Some "Period"%string) = true).
  { apply has_column_true. apply elem_of_add_column. by right. }
  eexists _, _. unfold mbind, M_bind.
  erewrite px_chart_run; [|cbn [heap]; exact Hf].
  rewrite Ht, Hp, andb_true_l, andb_true_r.
  split; [destruct (opt_has_column final var); reflexivity|].
  cbn [heap session ui]. repeat split; try done.
  - by do 2 apply lookup_app_l_Some.
  - subst h1. rewrite !length_app. lia.
Qed.

(** ** Rows of a comparison *)

Lemma row_period_align coord p r : row_period (align coord p r) = Some p.
Proof.
  unfold row_period, align, set_cell. cbn [cells].
  destruct (_ <$> row_time r);
    rewrite ?lookup_insert_ne, ?lookup_delete_ne by done;
    by rewrite lookup_insert_eq.
Qed.

Lemma row_time_align coord p r : row_time (align coord p r) = row_time r.
Proof. unfold align. by rewrite !row_time_set_cell. Qed.

Lemma row_aligned_x_align coord p r t :
  row_time r = Some t -> row_aligned_x (align coord p r) = Some (coord t).
Proof.
  intros Ht. unfold row_aligned_x, align, set_cell. cbn [cells].
  rewrite Ht. cbn. by rewrite lookup_insert_eq.
Qed.

Lemma aligned_subset_row lbl coord rs p r' :
  Forall (fun r => is_Some (row_time r)) rs ->
  In r' (aligned_subset lbl coord rs p) ->
  exists t, row_time r' = Some t /\ lbl t = p /\
            row_period r' = Some p /\ row_aligned_x r' = Some (coord t).
Proof.
  intros Hrs Hin. unfold aligned_subset in Hin.
  apply List.in_map_iff in Hin as (r & <- & Hr).
  apply List.filter_In in Hr as [Hr Hsel].
  destruct (proj1 (List.Forall_forall _ rs) Hrs r Hr) as [t Ht].
  exists t. unfold selects in Hsel. rewrite Ht in Hsel.
  apply String.eqb_eq in Hsel.
  rewrite row_time_align, row_period_align.
  by rewrite (row_aligned_x_align _ _ _ _ Ht).
Qed.

Lemma comparison_table_row lbl coord d ps r' :
  measurement_table d ->
  In r' (rows (comparison_table lbl coord d ps)) ->
  exists t, row_time r' = Some t /\ In (lbl t) ps /\
            row_period r' = Some (lbl t) /\
            row_aligned_x r' = Some (coord t).
Proof.
  intros [_ Hrs] Hin. cbn [comparison_table rows] in Hin.
  apply List.in_flat_map in Hin as (p & Hp & Hin).
  destruct (aligned_subset_row _ _ _ _ _ Hrs Hin) as (t & Ht & <- & Hper & Hx).
  by exists t.
Qed.

Lemma measurement_sample : measurement_table sample_table.
Proof.
  split; [by left|]. repeat constructor; by eexists.
Qed.

(** ** The claims about the comparison loops *)

(** C8: on a measurement table and a non-empty list of months, whatever
    the weeks and the date range, [build_comparison_df] returns a table
    whose rows are the subsets selected for each month, one after the
    other in the order of the months; every row has the year-month of its
    timestamp as [Period] and the day of the month of its timestamp, a
    number from 1 to 31, as [AlignedX]. *)
Theorem month_comparison_aligned st data d var date_range months weeks :
  heap st !! data = Some d ->
  measurement_table d ->
  months <> [] ->
  In var (columns d) ->
  exists f fig st' final,
    build_comparison_df data (Some var) date_range months weeks st =
      (Ok (f, fig), st') /\
    heap st' !! f = Some final /\
    rows final =
      flat_map (aligned_subset Calendar.month_label Calendar.day_of_month
                               (rows d)) months /\
    Forall (fun r =>
              exists t, row_time r = Some t /\
                        row_period r = Some (Calendar.month_label t) /\
                        row_aligned_x r = Some (Calendar.day_of_month t) /\
                        1 <= Calendar.day_of_month t <= 31)
           (rows final).
Proof.
  intros Hd Hm Hne Hvar. destruct months as [|m ms]; [done|].
  destruct (month_branch_run st data d (Some var) date_range m ms weeks Hd Hm)
    as (f & st' & Hrun & Hf & _).
  set (final := comparison_table _ _ _ _) in *.
  assert (Hcol : opt_has_column final (Some var) = true).
  { apply has_column_true, elem_of_aligned_columns. left.
    by apply list_elem_of_In. }
  rewrite Hcol in Hrun.
  exists f, (comparison_plot final (Some var) "Day of Month"), st', final.
  repeat split; try done.
  apply List.Forall_forall. intros r Hr.
  destruct (comparison_table_row _ _ _ _ _ Hm Hr) as (t & Ht & _ & Hp & Hx).
  exists t. repeat split; try done; apply day_of_day_range.
Qed.

Lemma month_comparison_aligned_witness :
  exists f fig st' final,
    build_comparison_df 0%nat (Some "kWh"%string) (jan30, feb01)
      ["2024-02"; "2024-01"]%string ["2024-01-29/2024-02-04"]%string
      sample_state = (Ok (f, fig), st') /\
    heap st' !! f = Some final /\
    rows final =
      flat_map (aligned_subset Calendar.month_label Calendar.day_of_month
                               (rows sample_table))
               ["2024-02"; "2024-01"]%string /\
    Forall (fun r =>
              exists t, row_time r = Some t /\
                        row_period r = Some (Calendar.month_label t) /\
                        row_aligned_x r = Some (Calendar.day_of_month t) /\
                        1 <= Calendar.day_of_month t <= 31)
           (rows final).
Proof.
  apply (month_comparison_aligned sample_state 0%nat sample_table "kWh").
  - reflexivity.
  - exact measurement_sample.
  - discriminate.
  - cbn. auto.
Defined.

(** C9: on a measurement table and a non-empty list of weeks, when no
    month is selected, every row of the table [build_comparison_df]
    returns has as [Period] the label of the Monday-to-Sunday week its
    timestamp falls in, and as [AlignedX] the weekday of its timestamp, a
    number from 0 to 6 counted from that Monday. *)
Theorem week_comparison_aligned st data d var date_range weeks :
  heap st !! data = Some d ->
  measurement_table d ->
  weeks <> [] ->
  In var (columns d) ->
  exists f fig st' final,
    build_comparison_df data (Some var) date_range [] weeks st =
      (Ok (f, fig), st') /\
    heap st' !! f = Some final /\
    rows final =
      flat_map (aligned_subset Calendar.week_label Calendar.weekday (rows d))
               weeks /\
    Forall (fun r =>
              exists t,
                let day := Calendar.date_of t in
                let monday := Calendar.week_start day in
                row_time r = Some t /\
                row_period r = Some (Calendar.week_label t) /\
                Calendar.week_label t =
                  (Calendar.date_str monday ++ "/" ++
                   Calendar.date_str (monday + 6))%string /\
                Calendar.weekday_of_day monday = 0 /\
                monday <= day <= monday + 6 /\
                row_aligned_x r = Some (Calendar.weekday t) /\
                0 <= Calendar.weekday t <= 6 /\
                day = monday + Calendar.weekday t)
           (rows final).
Proof.
  intros Hd Hm Hne Hvar. destruct weeks as [|w ws]; [done|].
  destruct (week_branch_run st data d (Some var) date_range w ws Hd Hm)
    as (f & st' & Hrun & Hf & _).
  set (final := comparison_table _ _ _ _) in *.
  assert (Hcol : opt_has_column final (Some var) = true).
  { apply has_column_true, elem_of_aligned_columns. left.
    by apply list_elem_of_In. }
  rewrite Hcol in Hrun.
  exists f, (comparison_plot final (Some var) "Day of Week"), st', final.
  repeat split; try done.
  apply List.Forall_forall. intros r Hr.
  destruct (comparison_table_row _ _ _ _ _ Hm Hr) as (t & Ht & _ & Hp & Hx).
  exists t. cbn zeta.
  pose proof (week_contains (Calendar.date_of t)) as [Hw1 Hw2].
  pose proof (weekday_of_day_range (Calendar.date_of t)).
  unfold Calendar.week_end in Hw1. unfold Calendar.weekday.
  repeat split; try done; try lia.
  apply week_start_is_monday.
Qed.

Lemma week_comparison_aligned_witness :
  exists f fig st' final,
    build_comparison_df 0%nat (Some "kWh"%string) (jan30, feb01) []
      ["2024-01-29/2024-02-04"]%string sample_state = (Ok (f, fig), st') /\
    heap st' !! f = Some final /\
    rows final =
      flat_map (aligned_subset Calendar.week_label Calendar.weekday
                               (rows sample_table))
               ["2024-01-29/2024-02-04"]%string /\
    Forall (fun r =>
              exists t,
                let day := Calendar.date_of t in
                let monday := Calendar.week_start day in
                row_time r = Some t /\
                row_period r = Some (Calendar.week_label t) /\
                Calendar.week_label t =
                  (Calendar.date_str monday ++ "/" ++
                   Calendar.date_str (monday + 6))%string /\
                Calendar.weekday_of_day monday = 0 /\
                monday <= day <= monday + 6 /\
                row_aligned_x r = Some (Calendar.weekday t) /\
                0 <= Calendar.weekday t <= 6 /\
                day = monday + Calendar.weekday t)
           (rows final).
Proof.
  apply (week_comparison_aligned sample_state 0%nat sample_table "kWh").
  - reflexivity.
  - exact measurement_sample.
  - discriminate.
  - cbn. auto.
Defined.

(** ** Precedence of the three selections *)

(** C5: with a non-empty list of months the result of
    [build_comparison_df] is the same for every list of weeks and every
    date range; with no month and a non-empty list of weeks it is the same
    for every date range; with neither, it is the table of the rows whose
    timestamp lies between the midnights of the two dates, labelled with
    the range. *)
Theorem selection_precedence st data d var :
  heap st !! data = Some d ->
  measurement_table d ->
  In var (columns d) ->
  (forall months, months <> [] ->
     forall date_range date_range' weeks weeks',
       build_comparison_df data (Some var) date_range months weeks st =
       build_comparison_df data (Some var) date_range' months weeks' st) /\
  (forall weeks, weeks <> [] ->
     forall date_range date_range',
       build_comparison_df data (Some var) date_range [] weeks st =
       build_comparison_df data (Some var) date_range' [] weeks st) /\
  (forall base_start base_end,
     date_in_bounds base_start -> date_in_bounds base_end ->
     exists f fig st',
       build_comparison_df data (Some var) (base_start, base_end) [] [] st =
         (Ok (f, fig), st') /\
       heap st' !! f = Some (range_table d base_start base_end)).
Proof.
  intros Hd Hm Hvar. split; [|split].
  - intros [|m ms] Hne [s e] [s' e'] weeks weeks'; [done|reflexivity].
  - intros [|w ws] Hne [s e] [s' e']; [done|reflexivity].
  - intros base_start base_end Hs He.
    destruct (range_branch_run st data d (Some var) base_start base_end
                Hd Hm Hs He) as (f & st' & Hrun & Hf & _).
    assert (Hcol : opt_has_column (range_table d base_start base_end)
                                  (Some var) = true).
    { apply has_column_true, elem_of_add_column. left.
      by apply list_elem_of_In. }
    rewrite Hcol in Hrun. eauto.
Qed.

Lemma selection_precedence_witness :
  build_comparison_df 0%nat (Some "kWh"%string) (jan30, jan31)
    ["2024-01"]%string ["2024-01-29/2024-02-04"]%string sample_state =
  build_comparison_df 0%nat (Some "kWh"%string) (feb01, feb01)
    ["2024-01"]%string [] sample_state.
Proof.
  destruct (selection_precedence sample_state 0%nat sample_table "kWh")
    as [Hmonths _].
  - reflexivity.
  - exact measurement_sample.
  - cbn. auto.
  - apply Hmonths. discriminate.
Defined.

(** ** The input table is not written to *)

(** C10: every frame the store holds when [build_comparison_df] is called,
    the input table among them, is the same frame afterwards, whether the
    call returns or raises; the session and the page are not touched. *)
Theorem build_comparison_df_keeps_input st data d var date_range months weeks :
  heap st !! data = Some d ->
  let st' := (build_comparison_df data var date_range months weeks st).2 in
  heap st' !! data = Some d /\
  (forall r df, heap st !! r = Some df -> heap st' !! r = Some df) /\
  session st' = session st /\ ui st' = ui st.
Proof.
  intros Hd st'.
  destruct (frame_build_comparison_df (length (heap st)) data var date_range
              months weeks st) as (Htake & _ & Hs & Hu & _); [done|].
  fold st' in Htake, Hs, Hu. rewrite (take_ge (heap st)) in Htake by done.
  assert (Hall : forall r df, heap st !! r = Some df -> heap st' !! r = Some df).
  { intros r df Hr. rewrite <- Htake in Hr.
    by apply lookup_take_Some in Hr as [Hr _]. }
  auto.
Qed.

Lemma build_comparison_df_keeps_input_witness :
  let st' := (build_comparison_df 0%nat (Some "kWh"%string) (jan30, feb01)
                ["2024-02"; "2024-01"]%string [] sample_state).2 in
  heap st' !! 0%nat = Some sample_table /\
  (forall r df, heap sample_state !! r = Some df -> heap st' !! r = Some df) /\
  session st' = session sample_state /\ ui st' = ui sample_state.
Proof.
  apply (build_comparison_df_keeps_input sample_state 0%nat sample_table).
  reflexivity.
Defined.

(** ** What the sidebar hands to the engine *)

Lemma In_tail_lookup {A} (l : list A) i x : tail l !! i = Some x -> In x l.
Proof.
  intros H. apply list_elem_of_In. destruct l as [|y l]; [done|].
  right. by eapply list_elem_of_lookup_2.
Qed.

(** X17: the variable selector offers the columns after the first: a
    variable that comes out of the sidebar is a column of the table of
    the session. *)
Lemma sidebar_variable_is_column parse inp st data var date_range months
    weeks st' :
  render_sidebar parse inp st =
    (Ok (Some (data, Some var, date_range, months, weeks)), st') ->
  exists d, heap st' !! data = Some d /\ In var (columns d).
Proof.
  unfold render_sidebar. intros H.
  unfold mbind, M_bind, show, set_csv_data, get_session, put_session,
    setitem_series, store, load, lift, alloc in H.
  cbn [heap session ui csv_data] in H.
  repeat case_match; simplify_eq; try done.
  all: unfold mret, M_ret in H; simplify_eq.
  all: match goal with
       | Hd : heap ?s !! ?l = Some ?d,
         Hv : tail (columns ?d) !! _ = Some ?v |- _ =>
           exists d; split; [exact Hd | exact (In_tail_lookup _ _ _ Hv)]
       end.
Qed.

(** ** A variable that is not a column *)

(** C6 as the code has it: on a measurement table, a variable name that
    is neither a column of the table nor one of the two names the
    alignment adds makes [build_comparison_df] raise [ValueError], for
    every selection (in date-range mode, for dates that fit a timestamp).
    No table is returned, and the exception comes when the trend chart is
    requested, after the rows have been selected: when the call ends, the
    store holds, in a frame that was not there before, the aligned table
    of the selection. *)
Theorem unknown_variable_raises st data d var base_start base_end months weeks :
  heap st !! data = Some d ->
  measurement_table d ->
  (months = [] -> weeks = [] ->
   date_in_bounds base_start /\ date_in_bounds base_end) ->
  ~ In var (columns d) ->
  var <> "Period"%string -> var <> "AlignedX"%string ->
  exists st' f,
    build_comparison_df data (Some var) (base_start, base_end) months weeks st
      = (Raise ValueError, st') /\
    (length (heap st) <= f)%nat /\
    heap st' !! f =
      Some match months, weeks with
           | _ :: _, _ =>
               comparison_table Calendar.month_label Calendar.day_of_month
                                d months
           | [], _ :: _ =>
               comparison_table Calendar.week_label Calendar.weekday d weeks
           | [], [] => range_table d base_start base_end
           end.
Proof.
  intros Hd Hm Hb Hvar Hp Hx.
  assert (Hnot : var ∉ columns d) by (by rewrite list_elem_of_In).
  destruct months as [|m ms]; [destruct weeks as [|w ws]|].
  - destruct (Hb eq_refl eq_refl) as [Hs He].
    destruct (range_branch_run st data d (Some var) base_start base_end
                Hd Hm Hs He) as (f & st' & Hrun & Hf & _ & _ & _ & Hle).
    exists st', f. split; [|done].
    rewrite Hrun. cbn [opt_has_column]. rewrite has_column_false; [done|].
    cbn [range_table columns]. rewrite elem_of_add_column. tauto.
  - destruct (week_branch_run st data d (Some var) (base_start, base_end)
                w ws Hd Hm) as (f & st' & Hrun & Hf & _ & _ & _ & Hle).
    exists st', f. split; [|done].
    rewrite Hrun. cbn [opt_has_column]. rewrite has_column_false; [done|].
    cbn [comparison_table columns]. rewrite elem_of_aligned_columns. tauto.
  - destruct (month_branch_run st data d (Some var) (base_start, base_end)
                m ms weeks Hd Hm) as (f & st' & Hrun & Hf & _ & _ & _ & Hle).
    exists st', f. split; [|done].
    rewrite Hrun. cbn [opt_has_column]. rewrite has_column_false; [done|].
    cbn [comparison_table columns]. rewrite elem_of_aligned_columns. tauto.
Qed.

Lemma date_in_bounds_2024 : date_in_bounds jan30 /\ date_in_bounds feb01.
Proof. by vm_compute. Qed.

Lemma unknown_variable_raises_witness :
  exists st' f,
    build_comparison_df 0%nat (Some "Gas"%string) (jan30, feb01) [] []
      sample_state = (Raise ValueError, st') /\
    (length (heap sample_state) <= f)%nat /\
    heap st' !! f = Some (range_table sample_table jan30 feb01).
Proof.
  apply (unknown_variable_raises sample_state 0%nat sample_table "Gas"
           jan30 feb01 [] []).
  - reflexivity.
  - exact measurement_sample.
  - intros _ _. apply date_in_bounds_2024.
  - cbn. intros [H|[H|[]]]; discriminate.
  - discriminate.
  - discriminate.
Defined.

(** The claim as the specification words it fails for the name [Period]:
    the table has no such column, and the call returns a table and a
    chart. *)
Lemma unknown_variable_counterexample :
  ~ In "Period"%string (columns sample_table) /\
  exists f fig st',
    build_comparison_df 0%nat (Some "Period"%string) (jan30, feb01) [] []
      sample_state = (Ok (f, fig), st').
Proof.
  split.
  - cbn. intros [H|[H|[]]]; discriminate.
  - by vm_compute; eauto.
Qed.

(** ** Totals by period *)










(** The groups that the fold builds, for either way of adding up. *)
Section GroupFold.

Variable wrap : Z -> Z.





Hypothesis wrap_add_l : forall a b, wrap (wrap a + b) = wrap (a + b).


End GroupFold.

Lemma zip_map_self {A B C} (f : A -> B) (g : A -> C) (l : list A) :
  zip (map f l) (map g l) = map (fun x => (f x, g x)) l.
Proof. induction l as [|x l IH]; [done|]. cbn. by rewrite IH. Qed.









Lemma In_unique x l : In x (unique l) <-> In x l.
Proof.
  induction l as [|y l IH]; [done|]. cbn [unique In].
  rewrite List.filter_In, IH. split.
  - intros [->|[H _]]; auto.
  - intros [->|H]; [by left|].
    destruct (String.eqb x y) eqn:E.
    + apply String.eqb_eq in E. by left.
    + right. by split.
Qed.






(** ** Date ranges *)

(** C1, on the sample table: the range from the date of the earliest
    reading to the date of the latest one, which is what the sidebar
    proposes, covers the three readings; the table returned holds two of
    them, the reading of 1 February at noon is left out. *)
Theorem whole_span_range_drops_last_day :
  date_method (time_min (map (fun r => cells r !! "Timestamp")
                             (rows sample_table))) = Ok jan30 /\
  date_method (time_max (map (fun r => cells r !! "Timestamp")
                             (rows sample_table))) = Ok feb01 /\
  Calendar.date_of (stamp 2024 2 1 12 0) = feb01 /\
  length (rows sample_table) = 3%nat /\
  exists f fig st' final,
    build_comparison_df 0%nat (Some "kWh"%string) (jan30, feb01) [] []
      sample_state = (Ok (f, fig), st') /\
    heap st' !! f = Some final /\
    map label (rows final) = [0%nat; 2%nat] /\
    map row_time (rows final) =
      [Some (stamp 2024 1 30 0 0); Some (stamp 2024 1 31 13 0)].
Proof.
  split; [vm_compute; reflexivity|].
  split; [vm_compute; reflexivity|].
  split; [vm_compute; reflexivity|].
  split; [reflexivity|].
  eexists _, _, _, _.
  split; [vm_compute; reflexivity|].
  split; [vm_compute; reflexivity|].
  split; vm_compute; reflexivity.
Qed.

(** C2, on the sample table: with both ends of the range on 31 January
    the reading of 31 January at 13:00 is not returned, the table is
    empty; with both ends on 30 January the reading taken at midnight is
    returned. *)
Theorem single_day_range_keeps_midnight_only :
  Calendar.date_of (stamp 2024 1 31 13 0) = jan31 /\
  (exists f fig st' final,
     build_comparison_df 0%nat (Some "kWh"%string) (jan31, jan31) [] []
       sample_state = (Ok (f, fig), st') /\
     heap st' !! f = Some final /\
     rows final = []) /\
  (exists f fig st' final,
     build_comparison_df 0%nat (Some "kWh"%string) (jan30, jan30) [] []
       sample_state = (Ok (f, fig), st') /\
     heap st' !! f = Some final /\
     map row_time (rows final) = [Some (stamp 2024 1 30 0 0)]).
Proof.
  split; [vm_compute; reflexivity|].
  split; eexists _, _, _, _.
  - split; [vm_compute; reflexivity|].
    split; vm_compute; reflexivity.
  - split; [vm_compute; reflexivity|].
    split; vm_compute; reflexivity.
Qed.

(** ** KPIs of an empty selection *)

Lemma render_kpis_empty st f final var :
  heap st !! f = Some final ->
  rows final = [] ->
  In "Timestamp"%string (columns final) ->
  render_kpis f var st =
    (Raise (if opt_has_column final var
            then match var with Some _ => ValueError | None => KeyError end
            else KeyError), st).
Proof.
  intros Hf Hrows Hts. unfold render_kpis.
  rewrite (bind_ok _ _ _ _ _ (load_run _ _ _ Hf)).
  destruct var as [v|]; cbn [getitem_opt opt_has_column];
    [|by apply bind_raise].
  unfold getitem. destruct (has_column final v) eqn:Hv;
    [|by apply bind_raise].
  rewrite Hrows. cbn [map mbind Outcome_bind].
  change (series_mean []) with (Ok MNaN).
  change (series_max []) with (Ok MNaN).
  change (series_min []) with (Ok MNaN).
  rewrite !(bind_ok _ _ _ _ _ (lift_run _ _)).
  rewrite has_column_true by (by apply list_elem_of_In).
  by apply bind_raise.
Qed.

(** A chart that was built was built from a frame that has the column of
    the variable, and a table that [build_comparison_df] returns is the
    frame of its chart. *)
Lemma px_chart_inv st k r x y color fig st' :
  px_chart k r x y color st = (Ok fig, st') ->
  st' = st /\ exists df, heap st !! r = Some df /\ opt_has_column df y = true.
Proof.
  unfold px_chart. intros H. apply bind_inv in H as (df & s1 & Hl & H).
  apply load_inv in Hl as [Hdf ->].
  destruct (has_column df x && opt_has_column df y && opt_has_column df color)
    eqn:E; [|done].
  injection H as _ <-. split; [done|]. exists df. split; [done|].
  apply andb_prop in E as [E _]. by apply andb_prop in E as [_ E].
Qed.

Lemma build_returns_charted data var date_range months weeks st f fig st' :
  build_comparison_df data var date_range months weeks st = (Ok (f, fig), st') ->
  exists final, heap st' !! f = Some final /\ opt_has_column final var = true.
Proof.
  unfold build_comparison_df. destruct date_range as [bs be]. intros H.
  apply bind_inv in H as (f0 & s0 & _ & H).
  destruct months as [|m ms]; [destruct weeks as [|w ws]|].
  - apply bind_inv in H as (d & s1 & _ & H).
    apply bind_inv in H as (mask & s2 & _ & H).
    apply bind_inv in H as (sel & s3 & _ & H).
    apply bind_inv in H as (fd & s4 & _ & H).
    apply bind_inv in H as ([] & s5 & _ & H).
    apply bind_inv in H as (fig0 & s6 & Hpx & H).
    apply px_chart_inv in Hpx as [-> (df & Hdf & Hcol)].
    injection H as <- _ <-. eauto.
  - apply bind_inv in H as (fd & s1 & _ & H).
    apply bind_inv in H as (fig0 & s2 & Hpx & H).
    apply px_chart_inv in Hpx as [-> (df & Hdf & Hcol)].
    injection H as <- _ <-. eauto.
  - apply bind_inv in H as (fd & s1 & _ & H).
    apply bind_inv in H as (fig0 & s2 & Hpx & H).
    apply px_chart_inv in Hpx as [-> (df & Hdf & Hcol)].
    injection H as <- _ <-. eauto.
Qed.

(** C3 as the code has it: on an aligned table with no row [render_kpis]
    returns for no variable name.  It raises before it shows any metric:
    [KeyError] when the variable is not a column of the table,
    [ValueError], from [idxmax], when it is a column of readings.  (For
    the label column [Period], which holds strings, it raises as well;
    which exception may depend on pandas, and none is named here.)  And
    [dashboard] does not catch the exception: when the selection made in
    the sidebar yields an empty table, the run of [dashboard] ends with
    it, and nothing has been put on the page since the sidebar, no
    placeholder either. *)
Theorem empty_selection_raises st f final :
  heap st !! f = Some final ->
  rows final = [] ->
  In "Timestamp"%string (columns final) ->
  (forall var, exists e,
     render_kpis f var st = (Raise e, st) /\
     (var <> Some "Period"%string ->
      e = match var with
          | Some v => if has_column final v then ValueError else KeyError
          | None => KeyError
          end)) /\
  (forall parse inp st0 st1 data var date_range months weeks fig,
     (setup_page;; render_navbar inp;; render_sidebar parse inp) st0 =
       (Ok (Some (data, var, date_range, months, weeks)), st1) ->
     build_comparison_df data var date_range months weeks st1 =
       (Ok (f, fig), st) ->
     exists e,
       dashboard parse inp st0 = (Raise e, st) /\
       ui st = ui st1 /\
       (var <> Some "Period"%string ->
        e = match var with Some _ => ValueError | None => KeyError end)).
Proof.
  intros Hf Hrows Hts. split.
  - intros var. eexists. split; [by apply (render_kpis_empty st f final)|].
    intros _. by destruct var.
  - intros parse inp st0 st1 data var date_range months weeks fig Hside Hbuild.
    destruct (build_returns_charted _ _ _ _ _ _ _ _ _ Hbuild)
      as (final' & Hf' & Hcol).
    assert (final' = final) as -> by congruence.
    pose proof (render_kpis_empty st f final var Hf Hrows Hts) as Hk.
    rewrite Hcol in Hk. eexists. split; [|split].
    + unfold dashboard. unfold mbind, M_bind in Hside |- *.
      destruct (setup_page st0) as [[[]|e0] sA]; [|done].
      destruct (render_navbar inp sA) as [[[]|e0] sB]; [|done].
      destruct (render_sidebar parse inp sB) as [[out|e0] sC]; [|done].
      injection Hside as -> ->.
      rewrite Hbuild. fold (@mbind M _). by rewrite Hk.
    + destruct (frame_build_comparison_df 0 data var date_range months weeks
                  st1) as (_ & _ & _ & Hu & _); [lia|].
      by rewrite Hbuild in Hu.
    + done.
Qed.

Lemma empty_selection_raises_witness :
  exists st,
    render_kpis 3%nat (Some "kWh"%string) st = (Raise ValueError, st) /\
    render_kpis 3%nat (Some "Gas"%string) st = (Raise KeyError, st) /\
    dashboard parse_sample (upload one_reading_csv) fresh_state =
      (Raise ValueError, st).
Proof.
  set (inp := upload one_reading_csv).
  set (st1 := ((setup_page;; render_navbar inp;; render_sidebar parse_sample inp)
                 fresh_state).2).
  set (run := build_comparison_df 0%nat (Some "kWh"%string) (jan31, jan31)
                [] [] st1).
  destruct (empty_selection_raises run.2 3%nat
              (mkDF ["Timestamp"; "kWh"; "Period"]%string []))
    as [Hkpis Hdash].
  - vm_compute. reflexivity.
  - reflexivity.
  - cbn. auto.
  - exists run.2.
    destruct (Hkpis (Some "kWh"%string)) as (e1 & Hrun1 & He1).
    destruct (Hkpis (Some "Gas"%string)) as (e2 & Hrun2 & He2).
    edestruct (Hdash parse_sample inp fresh_state st1 0%nat
                 (Some "kWh"%string) (jan31, jan31) [] []) as (e & Hd & _ & He).
    + vm_compute. reflexivity.
    + vm_compute. reflexivity.
    + specialize (He1 ltac:(discriminate)).
      specialize (He2 ltac:(discriminate)).
      specialize (He ltac:(discriminate)).
      vm_compute in He1, He2. subst e1 e2 e.
      exact (conj Hrun1 (conj Hrun2 Hd)).
Defined.

(** The claim as the specification words it fails on a file with one
    reading taken at 13:00: the range the sidebar proposes selects no
    row, [render_kpis] raises [ValueError], and so do [dashboard] and
    [router]; the page ends with the sidebar, before the KPIs, without a
    placeholder. *)
Lemma empty_selection_counterexample :
  (exists f fig st',
     build_comparison_df 0%nat (Some "kWh"%string) (jan31, jan31) [] []
       (render_sidebar parse_sample (upload one_reading_csv) fresh_state).2
       = (Ok (f, fig), st') /\
     (rows <$> heap st' !! f) = Some [] /\
     (render_kpis f (Some "kWh"%string) st').1 = Raise ValueError) /\
  (dashboard parse_sample (upload one_reading_csv) fresh_state).1 =
    Raise ValueError /\
  (router parse_sample (upload one_reading_csv) fresh_state).1 =
    Raise ValueError /\
  ui (router parse_sample (upload one_reading_csv) fresh_state).2 =
    dashboard_header ++
    sidebar_selectors ["kWh"]%string jan31 jan31 ["2024-01"]%string
                      ["2024-01-29/2024-02-04"]%string.
Proof.
  split.
  { eexists _, _, _. split; [vm_compute; reflexivity|].
    split; vm_compute; reflexivity. }
  split; [vm_compute; reflexivity|].
  split; vm_compute; reflexivity.
Qed.

(** ** A file that cannot be read as measurements *)

Lemma to_datetime_series_unparsable parse (rs : list Row) :
  Exists (fun r => exists s, cells r !! "Timestamp" = Some (CStr s) /\
                             parse s = None) rs ->
  to_datetime_series parse (map (fun r => cells r !! "Timestamp") rs) =
    Raise DateParseError.
Proof.
  unfold to_datetime_series.
  induction 1 as [r rs (s & Hc & Hp)|r rs _ IH]; cbn [map mapM].
  - by rewrite Hc, Hp.
  - rewrite IH.
    destruct (cells r !! "Timestamp") as [[n|s|t]|]; try done.
    by destruct (parse s).
Qed.

(** C7 as the code has it: when the uploaded file has no [Timestamp]
    column, or a timestamp in it does not parse, [render_sidebar] raises,
    and it does so after it has put the file into the session: the table
    of the session is then the uploaded file as it was read, whatever the
    session held before. *)
Theorem failed_upload_replaces_table parse inp st f :
  uploaded_file inp = Some f ->
  ~ In "Timestamp"%string (columns f) \/ unparsable parse f ->
  exists e st',
    render_sidebar parse inp st = (Raise e, st') /\
    (e = KeyError \/ e = DateParseError) /\
    csv_data (session st') = Some (length (heap st)) /\
    heap st' = heap st ++ [f] /\
    session_table st' = Some f.
Proof.
  intros Hup Hbad. unfold render_sidebar. rewrite Hup.
  do 5 (erewrite bind_ok; [|reflexivity]).
  cbn [session csv_data heap ui].
  set (st' := mkState _ _ _).
  assert (Hst : heap st' !! length (heap st) = Some f) by apply lookup_snoc.
  assert (Hres : forall e : Exn,
                   session_table st' = Some f /\
                   csv_data (session st') = Some (length (heap st)) /\
                   heap st' = heap st ++ [f] /\ e = e).
  { intros e. unfold session_table.
    split; [exact Hst|done]. }
  rewrite (bind_ok _ _ _ _ _ (load_run _ _ _ Hst)).
  destruct Hbad as [Hno|Hun].
  - exists KeyError, st'. split.
    + apply bind_raise. unfold getitem.
      rewrite has_column_false by (by rewrite list_elem_of_In). done.
    + destruct (Hres KeyError) as (? & ? & ? & _). auto.
  - destruct (decide ("Timestamp"%string ∈ columns f)) as [Hin|Hno].
    + exists DateParseError, st'. split.
      * apply bind_raise. rewrite (getitem_timestamp _ Hin).
        cbn [mbind Outcome_bind].
        by rewrite (to_datetime_series_unparsable _ _ Hun).
      * destruct (Hres KeyError) as (? & ? & ? & _). auto.
    + exists KeyError, st'. split.
      * apply bind_raise. unfold getitem. by rewrite has_column_false.
      * destruct (Hres KeyError) as (? & ? & ? & _). auto.
Qed.

Lemma failed_upload_replaces_table_witness :
  exists e st',
    render_sidebar parse_sample (upload garbled_csv) sample_state =
      (Raise e, st') /\
    (e = KeyError \/ e = DateParseError) /\
    csv_data (session st') = Some (length (heap sample_state)) /\
    heap st' = heap sample_state ++ [garbled_csv] /\
    session_table st' = Some garbled_csv.
Proof.
  apply (failed_upload_replaces_table parse_sample (upload garbled_csv)
           sample_state garbled_csv).
  - reflexivity.
  - right. apply List.Exists_cons_hd. by exists "yesterday-ish"%string.
Defined.

(** The claim as the specification words it fails when a session that
    holds the sample table receives a file without a [Timestamp] column,
    or one whose timestamp does not parse: the run raises, and the session
    then holds the rejected file instead of the sample table. *)
Lemma failed_upload_counterexample :
  session_table sample_state = Some sample_table /\
  (render_sidebar parse_sample (upload no_timestamp_csv) sample_state).1 =
    Raise KeyError /\
  session_table
    (render_sidebar parse_sample (upload no_timestamp_csv) sample_state).2 =
    Some no_timestamp_csv /\
  (render_sidebar parse_sample (upload garbled_csv) sample_state).1 =
    Raise DateParseError /\
  session_table
    (render_sidebar parse_sample (upload garbled_csv) sample_state).2 =
    Some garbled_csv /\
  Some no_timestamp_csv <> Some sample_table /\
  Some garbled_csv <> Some sample_table.
Proof.
  split; [reflexivity|].
  split; [vm_compute; reflexivity|].
  split; [vm_compute; reflexivity|].
  split; [vm_compute; reflexivity|].
  split; [vm_compute; reflexivity|].
  split; intros H; apply (f_equal (fmap (fun d => length (rows d)))) in H;
    vm_compute in H; discriminate.
Qed.

(** * Further properties of the code *)

(** ** Date ranges: which rows come back *)

Lemma midnight_mono d1 d2 : d1 <= d2 -> Calendar.midnight d1 <= Calendar.midnight d2.
Proof. unfold Calendar.midnight, Calendar.NS_PER_DAY. lia. Qed.

Lemma in_range_iff lo hi r :
  in_range lo hi r = true <-> exists t, row_time r = Some t /\ lo <= t <= hi.
Proof.
  unfold in_range. destruct (row_time r) as [t|].
  - rewrite andb_true_iff, Z.geb_le, Z.leb_le. split.
    + intros [H1 H2]. exists t. auto with zarith.
    + intros (t' & [= <-] & H1 & H2). auto.
  - split; [done|]. by intros (t & ? & _).
Qed.

Lemma filter_bool_all {A} (p : A -> bool) (l : list A) :
  Forall (fun x => p x = true) l -> List.filter p l = l.
Proof.
  induction 1 as [|x l Hx _ IH]; [done|]. cbn. by rewrite Hx, IH.
Qed.

Lemma filter_bool_none {A} (p : A -> bool) (l : list A) :
  Forall (fun x => p x = false) l -> List.filter p l = [].
Proof.
  induction 1 as [|x l Hx _ IH]; [done|]. cbn. by rewrite Hx, IH.
Qed.

Lemma row_period_tag r p : row_period (set_cell "Period" r (Some (CStr p))) = Some p.
Proof. unfold row_period, set_cell. cbn [cells]. by rewrite lookup_insert_eq. Qed.

Lemma range_run_ok st data d var base_start base_end :
  heap st !! data = Some d ->
  measurement_table d ->
  date_in_bounds base_start -> date_in_bounds base_end ->
  In var (columns d) ->
  exists f st',
    build_comparison_df data (Some var) (base_start, base_end) [] [] st =
      (Ok (f, mkFigure LineChart (range_table d base_start base_end)
                       "Timestamp" (Some var) (Some "Period"%string) None),
       st') /\
    heap st' !! f = Some (range_table d base_start base_end).
Proof.
  intros Hd Hm Hs He Hvar.
  destruct (range_branch_run st data d (Some var) base_start base_end
              Hd Hm Hs He) as (f & st' & Hrun & Hf & _).
  assert (Hcol : opt_has_column (range_table d base_start base_end)
                                (Some var) = true).
  { apply has_column_true, elem_of_add_column. left.
    by apply list_elem_of_In. }
  rewrite Hcol in Hrun. eauto.
Qed.

(** X1: in date-range mode, when every reading is dated on or after the
    start date and strictly before the end date, every row of the table
    is returned, in the order of the table, and all rows carry the one
    label of the range. *)
Theorem range_past_last_day_keeps_all st data d var base_start base_end :
  heap st !! data = Some d ->
  In "Timestamp"%string (columns d) ->
  Forall (fun r => exists t, row_time r = Some t /\
                             base_start <= Calendar.date_of t < base_end)
         (rows d) ->
  date_in_bounds base_start -> date_in_bounds base_end ->
  In var (columns d) ->
  exists f fig st' final,
    build_comparison_df data (Some var) (base_start, base_end) [] [] st =
      (Ok (f, fig), st') /\
    heap st' !! f = Some final /\
    rows final =
      map (fun r => set_cell "Period" r
                      (Some (CStr (date_range_label base_start base_end))))
          (rows d) /\
    length (rows final) = length (rows d) /\
    Forall (fun r => row_period r =
                       Some (date_range_label base_start base_end))
           (rows final).
Proof.
  intros Hd Hts Hall Hs He Hvar.
  assert (Hm : measurement_table d).
  { split; [by apply list_elem_of_In|].
    eapply Forall_impl; [exact Hall|]. intros r (t & Ht & _). by exists t. }
  destruct (range_run_ok st data d var base_start base_end Hd Hm Hs He Hvar)
    as (f & st' & Hrun & Hf).
  eexists f, _, st', _. split; [exact Hrun|]. split; [exact Hf|].
  assert (Hrows : rows (range_table d base_start base_end) =
                  map (fun r => set_cell "Period" r
                        (Some (CStr (date_range_label base_start base_end))))
                      (rows d)).
  { cbn [range_table rows]. rewrite filter_bool_all; [done|].
    eapply Forall_impl; [exact Hall|]. intros r (t & Ht & H1 & H2).
    apply in_range_iff. exists t. split; [done|]. split.
    - by apply midnight_le_iff.
    - pose proof (date_of_bounds t) as [_ Hlt].
      pose proof (midnight_mono (Calendar.date_of t + 1) base_end). lia. }
  rewrite Hrows. split; [done|]. split; [by rewrite length_map|].
  apply Forall_map. apply Forall_forall. intros r _. apply row_period_tag.
Qed.

Lemma range_past_last_day_keeps_all_witness :
  exists f fig st' final,
    build_comparison_df 0%nat (Some "kWh"%string) (jan30, feb01 + 1) [] []
      sample_state = (Ok (f, fig), st') /\
    heap st' !! f = Some final /\
    rows final =
      map (fun r => set_cell "Period" r
                      (Some (CStr (date_range_label jan30 (feb01 + 1)))))
          (rows sample_table) /\
    length (rows final) = length (rows sample_table) /\
    Forall (fun r => row_period r =
                       Some (date_range_label jan30 (feb01 + 1)))
           (rows final).
Proof.
  apply (range_past_last_day_keeps_all sample_state 0%nat sample_table "kWh").
  - reflexivity.
  - cbn. auto.
  - cbn [sample_table rows].
    repeat (apply List.Forall_cons;
            [eexists; split; [reflexivity|by vm_compute]|]).
    apply List.Forall_nil.
  - by vm_compute.
  - by vm_compute.
  - cbn. auto.
Defined.

(** X2: in date-range mode a timestamp is among the rows returned exactly
    when it is a timestamp of the table that lies between midnight at the
    start of the start date and midnight at the start of the end date,
    both included; every row returned carries the label of the range. *)
Theorem date_range_keeps_between_midnights st data d var base_start base_end :
  heap st !! data = Some d ->
  measurement_table d ->
  date_in_bounds base_start -> date_in_bounds base_end ->
  In var (columns d) ->
  exists f fig st' final,
    build_comparison_df data (Some var) (base_start, base_end) [] [] st =
      (Ok (f, fig), st') /\
    heap st' !! f = Some final /\
    (forall t, In (Some t) (map row_time (rows final)) <->
               In (Some t) (map row_time (rows d)) /\
               Calendar.midnight base_start <= t <=
                 Calendar.midnight base_end) /\
    Forall (fun r => row_period r =
                       Some (date_range_label base_start base_end))
           (rows final).
Proof.
  intros Hd Hm Hs He Hvar.
  destruct (range_run_ok st data d var base_start base_end Hd Hm Hs He Hvar)
    as (f & st' & Hrun & Hf).
  eexists f, _, st', _. split; [exact Hrun|]. split; [exact Hf|].
  cbn [range_table rows]. split.
  - intros t. rewrite map_map. rewrite !List.in_map_iff. split.
    + intros (r & Hr & Hin). rewrite row_time_set_cell in Hr by done.
      apply List.filter_In in Hin as [Hin Hrange].
      apply in_range_iff in Hrange as (t' & Ht' & Hb).
      assert (t' = t) as -> by congruence. split; [by exists r|done].
    + intros [(r & Hr & Hin) Hb]. exists r.
      rewrite row_time_set_cell by done. split; [done|].
      apply List.filter_In. split; [done|]. apply in_range_iff. by exists t.
  - apply Forall_map. apply Forall_forall. intros r _. apply row_period_tag.
Qed.

Lemma date_range_keeps_between_midnights_witness :
  exists f fig st' final,
    build_comparison_df 0%nat (Some "kWh"%string) (jan30, feb01) [] []
      sample_state = (Ok (f, fig), st') /\
    heap st' !! f = Some final /\
    (forall t, In (Some t) (map row_time (rows final)) <->
               In (Some t) (map row_time (rows sample_table)) /\
               Calendar.midnight jan30 <= t <= Calendar.midnight feb01) /\
    Forall (fun r => row_period r = Some (date_range_label jan30 feb01))
           (rows final).
Proof.
  apply (date_range_keeps_between_midnights sample_state 0%nat sample_table
           "kWh").
  - reflexivity.
  - exact measurement_sample.
  - apply date_in_bounds_2024.
  - apply date_in_bounds_2024.
  - cbn. auto.
Defined.

(** X3: in date-range mode with the end date before the start date the
    call still returns, with a table that has no row. *)
Theorem inverted_range_is_empty st data d var base_start base_end :
  heap st !! data = Some d ->
  measurement_table d ->
  date_in_bounds base_start -> date_in_bounds base_end ->
  In var (columns d) ->
  base_end < base_start ->
  exists f fig st' final,
    build_comparison_df data (Some var) (base_start, base_end) [] [] st =
      (Ok (f, fig), st') /\
    heap st' !! f = Some final /\
    rows final = [].
Proof.
  intros Hd Hm Hs He Hvar Hlt.
  destruct (range_run_ok st data d var base_start base_end Hd Hm Hs He Hvar)
    as (f & st' & Hrun & Hf).
  eexists f, _, st', _. split; [exact Hrun|]. split; [exact Hf|].
  cbn [range_table rows]. rewrite filter_bool_none; [done|].
  apply Forall_forall. intros r _.
  destruct (in_range _ _ r) eqn:E; [|done].
  apply in_range_iff in E as (t & _ & H1 & H2).
  pose proof (midnight_mono (base_end + 1) base_start).
  unfold Calendar.midnight, Calendar.NS_PER_DAY in *. lia.
Qed.

Lemma inverted_range_is_empty_witness :
  exists f fig st' final,
    build_comparison_df 0%nat (Some "kWh"%string) (feb01, jan30) [] []
      sample_state = (Ok (f, fig), st') /\
    heap st' !! f = Some final /\
    rows final = [].
Proof.
  apply (inverted_range_is_empty sample_state 0%nat sample_table "kWh").
  - reflexivity.
  - exact measurement_sample.
  - apply date_in_bounds_2024.
  - apply date_in_bounds_2024.
  - cbn. auto.
  - by vm_compute.
Defined.

(** ** What a selection keeps of the table *)

Lemma cells_tag_other c r v x :
  x <> c -> cells (set_cell c r v) !! x = cells r !! x.
Proof.
  intros Hx. unfold set_cell. cbn [cells].
  destruct v; by rewrite ?lookup_insert_ne, ?lookup_delete_ne.
Qed.

Lemma align_keeps coord p r c :
  c <> "Period"%string -> c <> "AlignedX"%string ->
  label (align coord p r) = label r /\ cells (align coord p r) !! c = cells r !! c.
Proof.
  intros H1 H2. unfold align. by rewrite !cells_tag_other.
Qed.

Lemma comparison_table_keeps lbl coord d ps r' :
  In r' (rows (comparison_table lbl coord d ps)) ->
  exists r, In r (rows d) /\ label r' = label r /\
            forall c, c <> "Period"%string -> c <> "AlignedX"%string ->
                      cells r' !! c = cells r !! c.
Proof.
  cbn [comparison_table rows]. intros Hin.
  apply List.in_flat_map in Hin as (p & _ & Hin).
  unfold aligned_subset in Hin.
  apply List.in_map_iff in Hin as (r & <- & Hr).
  apply List.filter_In in Hr as [Hr _].
  exists r. split; [done|]. split; [done|].
  intros c H1 H2. by apply align_keeps.
Qed.

Lemma comparison_run_ok st data d var date_range months weeks :
  heap st !! data = Some d ->
  measurement_table d ->
  months <> [] \/ weeks <> [] ->
  In var (columns d) ->
  exists f st' final title,
    build_comparison_df data (Some var) date_range months weeks st =
      (Ok (f, comparison_plot final (Some var) title), st') /\
    heap st' !! f = Some final /\
    match months with
    | _ :: _ =>
        final = comparison_table Calendar.month_label Calendar.day_of_month
                                 d months /\
        title = "Day of Month"%string
    | [] =>
        final = comparison_table Calendar.week_label Calendar.weekday d weeks /\
        title = "Day of Week"%string
    end.
Proof.
  intros Hd Hm Hne Hvar.
  assert (Hcol : forall lbl coord ps,
             opt_has_column (comparison_table lbl coord d ps) (Some var) = true).
  { intros. apply has_column_true, elem_of_aligned_columns. left.
    by apply list_elem_of_In. }
  destruct months as [|m ms]; [destruct weeks as [|w ws]|].
  - by destruct Hne.
  - destruct (week_branch_run st data d (Some var) date_range w ws Hd Hm)
      as (f & st' & Hrun & Hf & _).
    rewrite Hcol in Hrun. eauto 10.
  - destruct (month_branch_run st data d (Some var) date_range m ms weeks Hd Hm)
      as (f & st' & Hrun & Hf & _).
    rewrite Hcol in Hrun. eauto 10.
Qed.

(** X4: whatever the selection, every row of the table returned is a row
    of the input table with the same index label and the same cell in
    every column other than [Period] and [AlignedX], and every column of
    the input is a column of the table returned. *)
Theorem selection_keeps_values st data d var base_start base_end months weeks :
  heap st !! data = Some d ->
  measurement_table d ->
  date_in_bounds base_start -> date_in_bounds base_end ->
  In var (columns d) ->
  exists f fig st' final,
    build_comparison_df data (Some var) (base_start, base_end) months weeks st
      = (Ok (f, fig), st') /\
    heap st' !! f = Some final /\
    Forall (fun r' =>
              exists r, In r (rows d) /\ label r' = label r /\
                        forall c, c <> "Period"%string ->
                                  c <> "AlignedX"%string ->
                                  cells r' !! c = cells r !! c)
           (rows final) /\
    (forall c, In c (columns d) -> In c (columns final)).
Proof.
  intros Hd Hm Hs He Hvar.
  destruct (decide (months <> [] \/ weeks <> [])) as [Hne|Hnone].
  - destruct (comparison_run_ok st data d var (base_start, base_end) months
                weeks Hd Hm Hne Hvar) as (f & st' & final & title & Hrun & Hf & Hfin).
    exists f, (comparison_plot final (Some var) title), st', final.
    split; [done|]. split; [done|].
    assert (Hshape : exists lbl coord ps,
               final = comparison_table lbl coord d ps).
    { destruct months; destruct Hfin as [-> _]; eauto. }
    destruct Hshape as (lbl & coord & ps & ->). split.
    + apply List.Forall_forall. intros r' Hr'.
      by eapply comparison_table_keeps.
    + intros c Hc. apply list_elem_of_In, elem_of_aligned_columns. left.
      by apply list_elem_of_In.
  - assert (months = [] /\ weeks = []) as [-> ->].
    { destruct months, weeks; try done; exfalso; apply Hnone; auto. }
    destruct (range_run_ok st data d var base_start base_end Hd Hm Hs He Hvar)
      as (f & st' & Hrun & Hf).
    eexists f, _, st', _. split; [exact Hrun|]. split; [exact Hf|].
    cbn [range_table rows columns]. split.
    + apply Forall_map. apply List.Forall_forall. intros r Hr.
      apply List.filter_In in Hr as [Hr _].
      exists r. split; [done|]. split; [done|].
      intros c Hc _. by apply cells_tag_other.
    + intros c Hc. apply list_elem_of_In, elem_of_add_column. left.
      by apply list_elem_of_In.
Qed.

Lemma selection_keeps_values_witness :
  exists f fig st' final,
    build_comparison_df 0%nat (Some "kWh"%string) (jan30, feb01)
      ["2024-01"]%string [] sample_state = (Ok (f, fig), st') /\
    heap st' !! f = Some final /\
    Forall (fun r' =>
              exists r, In r (rows sample_table) /\ label r' = label r /\
                        forall c, c <> "Period"%string ->
                                  c <> "AlignedX"%string ->
                                  cells r' !! c = cells r !! c)
           (rows final) /\
    (forall c, In c (columns sample_table) -> In c (columns final)).
Proof.
  apply (selection_keeps_values sample_state 0%nat sample_table "kWh").
  - reflexivity.
  - exact measurement_sample.
  - apply date_in_bounds_2024.
  - apply date_in_bounds_2024.
  - cbn. auto.
Defined.

(** X5: a month that no reading falls in contributes no row and does not
    make the call fail: a month comparison always returns a table with
    the columns of an aligned table, and that table has no row exactly
    when no reading of the input falls in any of the picked months. *)
Theorem month_table_empty_iff st data d var date_range months weeks :
  heap st !! data = Some d ->
  measurement_table d ->
  months <> [] ->
  In var (columns d) ->
  exists f fig st' final,
    build_comparison_df data (Some var) date_range months weeks st =
      (Ok (f, fig), st') /\
    heap st' !! f = Some final /\
    In "Period"%string (columns final) /\
    In "AlignedX"%string (columns final) /\
    (rows final = [] <->
     Forall (fun r => forall t, row_time r = Some t ->
                                ~ In (Calendar.month_label t) months)
            (rows d)).
Proof.
  intros Hd Hm Hne Hvar.
  destruct (comparison_run_ok st data d var date_range months weeks Hd Hm
              (or_introl Hne) Hvar) as (f & st' & final & title & Hrun & Hf & Hfin).
  exists f, (comparison_plot final (Some var) title), st', final.
  split; [done|]. split; [done|].
  destruct months as [|m ms]; [done|]. destruct Hfin as [-> _].
  cbn [comparison_table rows columns]. split; [|split].
  - apply list_elem_of_In, elem_of_aligned_columns. auto.
  - apply list_elem_of_In, elem_of_aligned_columns. auto.
  - generalize (m :: ms). clear m ms Hne Hrun Hf. intros ps. split.
    + intros Hnil. apply List.Forall_forall. intros r Hr t Ht Hin.
      assert (Hrow : In (align Calendar.day_of_month (Calendar.month_label t) r)
                        (flat_map (aligned_subset Calendar.month_label
                                     Calendar.day_of_month (rows d)) ps)).
      { apply List.in_flat_map. exists (Calendar.month_label t).
        split; [done|]. unfold aligned_subset. apply List.in_map.
        apply List.filter_In. split; [done|].
        unfold selects. rewrite Ht. apply String.eqb_refl. }
      by rewrite Hnil in Hrow.
    + intros Habs. induction ps as [|p ps IH]; [done|].
      cbn [flat_map]. rewrite IH; cycle 1.
      { eapply Forall_impl; [exact Habs|]. intros r Hr t Ht Hin.
        apply (Hr t Ht). by right. }
      rewrite app_nil_r. unfold aligned_subset.
      rewrite filter_bool_none; [done|].
      destruct Hm as [_ Hm]. apply List.Forall_forall. intros r Hr.
      destruct (proj1 (List.Forall_forall _ _) Hm r Hr) as [t Ht].
      unfold selects. rewrite Ht. apply String.eqb_neq. intros Heq.
      apply (proj1 (List.Forall_forall _ _) Habs r Hr t Ht). by left.
Qed.

Lemma month_table_empty_iff_witness :
  exists f fig st' final,
    build_comparison_df 0%nat (Some "kWh"%string) (jan30, feb01)
      ["2023-12"]%string [] sample_state = (Ok (f, fig), st') /\
    heap st' !! f = Some final /\
    In "Period"%string (columns final) /\
    In "AlignedX"%string (columns final) /\
    (rows final = [] <->
     Forall (fun r => forall t, row_time r = Some t ->
                                ~ In (Calendar.month_label t)
                                     ["2023-12"]%string)
            (rows sample_table)).
Proof.
  apply (month_table_empty_iff sample_state 0%nat sample_table "kWh").
  - reflexivity.
  - exact measurement_sample.
  - discriminate.
  - cbn. auto.
Defined.

(** ** A table without timestamps, and the chart that is requested *)

Lemma getitem_missing d c : ~ In c (columns d) -> getitem d c = Raise KeyError.
Proof.
  intros H. unfold getitem. rewrite has_column_false; [done|].
  by rewrite list_elem_of_In.
Qed.

Lemma align_body_missing lbl coord st data d final_df p :
  heap st !! data = Some d ->
  ~ In "Timestamp"%string (columns d) ->
  align_body lbl coord data final_df p st = (Raise KeyError, st).
Proof.
  intros Hd Hno. unfold align_body.
  rewrite (bind_ok _ _ _ _ _ (load_run _ _ _ Hd)).
  apply bind_raise. by rewrite (getitem_missing _ _ Hno).
Qed.

(** X6: on a table that has no [Timestamp] column, [build_comparison_df]
    raises [KeyError] for every selection. *)
Theorem missing_timestamp_column_raises st data d var date_range months weeks :
  heap st !! data = Some d ->
  ~ In "Timestamp"%string (columns d) ->
  (build_comparison_df data var date_range months weeks st).1 = Raise KeyError.
Proof.
  intros Hd Hno. destruct date_range as [base_start base_end].
  unfold build_comparison_df, new_frame.
  rewrite (bind_ok _ _ _ _ _ (alloc_run _ _)).
  set (st1 := mkState _ _ _).
  assert (Hd1 : heap st1 !! data = Some d) by by apply lookup_app_l_Some.
  destruct months as [|m ms]; [destruct weeks as [|w ws]|].
  - rewrite (bind_ok _ _ _ _ _ (load_run _ _ _ Hd1)).
    erewrite bind_raise; [done|].
    unfold range_mask. by rewrite (getitem_missing _ _ Hno).
  - erewrite bind_raise; [done|]. cbn [for_each].
    apply bind_raise.
    apply (align_body_missing Calendar.week_label Calendar.weekday _ _ _ _ _
             Hd1 Hno).
  - erewrite bind_raise; [done|]. cbn [for_each].
    apply bind_raise.
    apply (align_body_missing Calendar.month_label Calendar.day_of_month
             _ _ _ _ _ Hd1 Hno).
Qed.

Lemma missing_timestamp_column_raises_witness :
  (build_comparison_df 0%nat (Some "kWh"%string) (jan30, feb01)
     ["2024-01"]%string []
     (mkState [no_timestamp_csv] (mkSession (Some 0%nat) None) [])).1 =
  Raise KeyError.
Proof.
  apply (missing_timestamp_column_raises _ 0%nat no_timestamp_csv).
  - reflexivity.
  - cbn. intros [H|[H|[]]]; discriminate.
Defined.

(** X7: the chart returned with the table is requested over that very
    table: a line chart of the variable, one colour per [Period], over
    [AlignedX] titled "Day of Month" for a month comparison, over
    [AlignedX] titled "Day of Week" for a week comparison, and over the
    raw [Timestamp] with no title of its own for a date range. *)
Theorem trend_chart_of_returned_table st data d var base_start base_end
    months weeks :
  heap st !! data = Some d ->
  measurement_table d ->
  date_in_bounds base_start -> date_in_bounds base_end ->
  In var (columns d) ->
  exists f fig st' final,
    build_comparison_df data (Some var) (base_start, base_end) months weeks st
      = (Ok (f, fig), st') /\
    heap st' !! f = Some final /\
    fig_frame fig = final /\
    fig_kind fig = LineChart /\
    fig_y fig = Some var /\
    fig_color fig = Some "Period"%string /\
    (fig_x fig, fig_xaxis_title fig) =
      match months, weeks with
      | _ :: _, _ => ("AlignedX"%string, Some "Day of Month"%string)
      | [], _ :: _ => ("AlignedX"%string, Some "Day of Week"%string)
      | [], [] => ("Timestamp"%string, None)
      end.
Proof.
  intros Hd Hm Hs He Hvar.
  destruct (decide (months <> [] \/ weeks <> [])) as [Hne|Hnone].
  - destruct (comparison_run_ok st data d var (base_start, base_end) months
                weeks Hd Hm Hne Hvar) as (f & st' & final & title & Hrun & Hf & Hfin).
    exists f, (comparison_plot final (Some var) title), st', final.
    split; [done|]. split; [done|]. cbn [comparison_plot fig_frame fig_kind
      fig_y fig_color fig_x fig_xaxis_title].
    repeat split.
    destruct months as [|m ms]; [destruct weeks as [|w ws]|];
      [by destruct Hne| |]; by destruct Hfin as [_ ->].
  - assert (months = [] /\ weeks = []) as [-> ->].
    { destruct months, weeks; try done; exfalso; apply Hnone; auto. }
    destruct (range_run_ok st data d var base_start base_end Hd Hm Hs He Hvar)
      as (f & st' & Hrun & Hf).
    eexists f, _, st', _. split; [exact Hrun|]. split; [exact Hf|]. done.
Qed.

Lemma trend_chart_of_returned_table_witness :
  exists f fig st' final,
    build_comparison_df 0%nat (Some "kWh"%string) (jan30, feb01) []
      ["2024-01-29/2024-02-04"]%string sample_state = (Ok (f, fig), st') /\
    heap st' !! f = Some final /\
    fig_frame fig = final /\
    fig_kind fig = LineChart /\
    fig_y fig = Some "kWh"%string /\
    fig_color fig = Some "Period"%string /\
    (fig_x fig, fig_xaxis_title fig) =
      ("AlignedX"%string, Some "Day of Week"%string).
Proof.
  apply (trend_chart_of_returned_table sample_state 0%nat sample_table "kWh"
           jan30 feb01 [] ["2024-01-29/2024-02-04"]%string).
  - reflexivity.
  - exact measurement_sample.
  - apply date_in_bounds_2024.
  - apply date_in_bounds_2024.
  - cbn. auto.
Defined.

(** ** The KPI row *)

Lemma fold_max_spec xs x :
  In (fold_left Z.max xs x) (x :: xs) /\
  forall y, In y (x :: xs) -> y <= fold_left Z.max xs x.
Proof.
  revert x. induction xs as [|a xs IH]; intros x; cbn [fold_left].
  - split; [by left|]. intros y [->|[]]. lia.
  - destruct (IH (Z.max x a)) as [Hin Hle]. split.
    + destruct Hin as [Hm|Hin]; [|by right; right].
      rewrite <- Hm. destruct (Z.max_spec x a) as [[_ ->]|[_ ->]]; cbn; auto.
    + intros y [->|[->|Hy]].
      * specialize (Hle (Z.max y a) (or_introl eq_refl)). lia.
      * specialize (Hle (Z.max x y) (or_introl eq_refl)). lia.
      * apply Hle. by right.
Qed.

Lemma fold_min_spec xs x :
  In (fold_left Z.min xs x) (x :: xs) /\
  forall y, In y (x :: xs) -> fold_left Z.min xs x <= y.
Proof.
  revert x. induction xs as [|a xs IH]; intros x; cbn [fold_left].
  - split; [by left|]. intros y [->|[]]. lia.
  - destruct (IH (Z.min x a)) as [Hin Hle]. split.
    + destruct Hin as [Hm|Hin]; [|by right; right].
      rewrite <- Hm. destruct (Z.min_spec x a) as [[_ ->]|[_ ->]]; cbn; auto.
    + intros y [->|[->|Hy]].
      * specialize (Hle (Z.min y a) (or_introl eq_refl)). lia.
      * specialize (Hle (Z.min x y) (or_introl eq_refl)). lia.
      * apply Hle. by right.
Qed.

Lemma fold_add_sum xs a : fold_left Z.add xs a = a + fold_right Z.add 0 xs.
Proof.
  revert a. induction xs as [|x xs IH]; intros a; cbn; [lia|].
  rewrite IH. lia.
Qed.

Lemma numeric_of_column var (rs : list Row) :
  Forall (fun r => cells r !! var = None \/
                   exists n, cells r !! var = Some (CNum n)) rs ->
  numeric (map (fun r => cells r !! var) rs) = Ok (map (row_num var) rs).
Proof.
  unfold numeric. induction 1 as [|r rs Hr _ IH]; [done|].
  cbn [map mapM]. rewrite IH. unfold row_num.
  destruct Hr as [H|[n H]]; by rewrite H.
Qed.

Lemma not_datetime_column var (rs : list Row) :
  Forall (fun r => cells r !! var = None \/
                   exists n, cells r !! var = Some (CNum n)) rs ->
  is_datetime (map (fun r => cells r !! var) rs) = false.
Proof.
  unfold is_datetime. induction 1 as [|r rs Hr _ IH]; [done|].
  cbn [map existsb]. rewrite IH. destruct Hr as [->|[n ->]]; done.
Qed.

Lemma reduced_of_column var (rs : list Row) :
  Forall (fun r => cells r !! var = None \/
                   exists n, cells r !! var = Some (CNum n)) rs ->
  reduced (map (fun r => cells r !! var) rs) = Ok (map (row_num var) rs).
Proof.
  intros H. unfold reduced. rewrite (not_datetime_column _ _ H).
  by apply numeric_of_column.
Qed.

Lemma dropna_row_num var (rs : list Row) :
  dropna (map (row_num var) rs) = omap (row_num var) rs.
Proof.
  unfold dropna. induction rs as [|r rs IH]; [done|].
  cbn. rewrite IH. by destruct (row_num var r).
Qed.

Lemma argmax_rows var (rs : list Row) : forall best,
  match argmax best (map (fun r => (label r, row_num var r)) rs) with
  | None => best = None /\ Forall (fun r => row_num var r = None) rs
  | Some (i, v) =>
      (best = Some (i, v) /\
       Forall (fun r => forall w, row_num var r = Some w -> w <= v) rs) \/
      (exists rs1 r rs2,
         rs = rs1 ++ r :: rs2 /\ label r = i /\ row_num var r = Some v /\
         (forall i0 b, best = Some (i0, b) -> b < v) /\
         Forall (fun r' => forall w, row_num var r' = Some w -> w < v) rs1 /\
         Forall (fun r' => forall w, row_num var r' = Some w -> w <= v) rs2)
  end.
Proof.
  induction rs as [|r rs IH]; intros best; cbn [map argmax].
  - destruct best as [[i v]|]; [left|]; by split.
  - destruct (row_num var r) as [w|] eqn:Hw.
    + destruct best as [[i0 b]|].
      * destruct (w >? b) eqn:Hgt.
        -- apply Z.gtb_lt in Hgt. specialize (IH (Some (label r, w))).
           destruct (argmax _ _) as [[i v]|]; [|by destruct IH].
           right. destruct IH as [[[= <- <-] Hall]|
             (rs1 & r1 & rs2 & -> & Hl & Hv & Hb & H1 & H2)].
           ++ exists [], r, rs. repeat split; try done.
              intros ? ? [= <- <-]. lia.
           ++ exists (r :: rs1), r1, rs2.
              pose proof (Hb _ _ eq_refl).
              repeat split; try done.
              ** intros ? ? [= <- <-]. lia.
              ** constructor; [|done]. intros w0 Hw0; assert (w0 = w) by congruence; lia.
        -- assert (w <= b) by (destruct (Z.gtb_spec w b); [done|lia]).
           specialize (IH (Some (i0, b))).
           destruct (argmax _ _) as [[i v]|]; [|by destruct IH].
           destruct IH as [[[= <- <-] Hall]|
             (rs1 & r1 & rs2 & -> & Hl & Hv & Hb & H1 & H2)].
           ++ left. split; [done|]. constructor; [|done].
              intros w0 Hw0; assert (w0 = w) by congruence; lia.
           ++ right. exists (r :: rs1), r1, rs2.
              pose proof (Hb _ _ eq_refl).
              repeat split; try done.
              constructor; [|done]. intros w0 Hw0; assert (w0 = w) by congruence; lia.
      * specialize (IH (Some (label r, w))).
        destruct (argmax _ _) as [[i v]|]; [|by destruct IH].
        right. destruct IH as [[[= <- <-] Hall]|
          (rs1 & r1 & rs2 & -> & Hl & Hv & Hb & H1 & H2)].
        -- exists [], r, rs. repeat split; try done.
        -- exists (r :: rs1), r1, rs2.
           pose proof (Hb _ _ eq_refl).
           repeat split; try done.
           constructor; [|done]. intros w0 Hw0; assert (w0 = w) by congruence; lia.
    + specialize (IH best).
      destruct (argmax _ _) as [[i v]|].
      * destruct IH as [[-> Hall]|
          (rs1 & r1 & rs2 & -> & Hl & Hv & Hb & H1 & H2)].
        -- left. split; [done|]. constructor; [|done]. congruence.
        -- right. exists (r :: rs1), r1, rs2.
           repeat split; try done.
           constructor; [|done]. congruence.
      * destruct IH as [-> Hall]. split; [done|]. by constructor.
Qed.

Lemma show_run st w :
  show w st = (Ok tt, mkState (heap st) (session st) (ui st ++ [w])).
Proof. reflexivity. Qed.

Lemma render_kpis_run st f d var x xs i v :
  heap st !! f = Some d ->
  numeric_column var d ->
  In "Timestamp"%string (columns d) ->
  omap (row_num var) (rows d) = x :: xs ->
  argmax None (map (fun r => (label r, row_num var r)) (rows d)) = Some (i, v) ->
  render_kpis f (Some var) st =
    (Ok tt,
     mkState (heap st) (session st)
       (ui st ++ kpi_widgets (MMean (fold_left Z.add (x :: xs) 0)
                                    (length (x :: xs)))
                             (MInt (fold_left Z.max xs x))
                             (MInt (fold_left Z.min xs x))
                             (MPeak (loc_cell d i "Timestamp")))).
Proof.
  intros Hf [Hvar Hnum] Hts Hvals Harg. unfold render_kpis.
  rewrite (bind_ok _ _ _ _ _ (load_run _ _ _ Hf)).
  cbn [getitem_opt]. unfold getitem.
  rewrite !has_column_true by (by apply list_elem_of_In).
  cbn [mbind Outcome_bind].
  unfold series_mean, series_max, series_min, idxmax.
  rewrite (reduced_of_column _ _ Hnum), (not_datetime_column _ _ Hnum).
  cbn [mbind Outcome_bind].
  rewrite dropna_row_num, Hvals, zip_map_self, Harg.
  cbn [mbind Outcome_bind].
  rewrite !(bind_ok _ _ _ _ _ (lift_run _ _)).
  rewrite !(bind_ok _ _ _ _ _ (show_run _ _)).
  rewrite show_run. cbn [heap session ui kpi_widgets].
  by rewrite <- !app_assoc.
Qed.

(** X8: [render_kpis] shows the four metrics or none of them: when it
    returns, the page has grown by exactly the four metrics, when it
    raises, the page is as it was; the frames and the session are never
    touched. *)
Theorem render_kpis_all_or_nothing st f var :
  heap (render_kpis f var st).2 = heap st /\
  session (render_kpis f var st).2 = session st /\
  match (render_kpis f var st).1 with
  | Ok _ => exists avg mx mn peak,
      ui (render_kpis f var st).2 = ui st ++ kpi_widgets avg mx mn peak
  | Raise _ => ui (render_kpis f var st).2 = ui st
  end.
Proof.
  unfold render_kpis, mbind, M_bind, load, lift, show.
  repeat case_match; simplify_eq; cbn [heap session ui fst snd];
    repeat split; try done.
  all: do 4 eexists; unfold kpi_widgets; by rewrite <- !app_assoc.
Qed.

Lemma values_have_argmax var (rs : list Row) :
  omap (row_num var) rs <> [] ->
  exists i v,
    argmax None (map (fun r => (label r, row_num var r)) rs) = Some (i, v).
Proof.
  intros Hne. pose proof (argmax_rows var rs None) as H.
  destruct (argmax _ _) as [[i v]|]; [eauto|].
  destruct H as [_ Hall]. exfalso. apply Hne. clear Hne.
  induction Hall as [|r rs' Hr _ IH]; [done|]. cbn. by rewrite Hr.
Qed.

(** X9: on a table with a [Timestamp] column and at least one number in
    the selected column, [render_kpis] returns and shows as average the
    total and the count of the numbers, as maximum and as baseload two of
    the numbers, with every number of the column between the two. *)
Theorem kpi_values st f d var :
  heap st !! f = Some d ->
  numeric_column var d ->
  In "Timestamp"%string (columns d) ->
  omap (row_num var) (rows d) <> [] ->
  let values := omap (row_num var) (rows d) in
  exists mx mn peak st',
    render_kpis f (Some var) st = (Ok tt, st') /\
    ui st' = ui st ++ kpi_widgets
                        (MMean (fold_right Z.add 0 values) (length values))
                        (MInt mx) (MInt mn) peak /\
    In mx values /\ In mn values /\
    (forall v, In v values -> mn <= v <= mx).
Proof.
  intros Hf Hnum Hts Hne values.
  destruct (values_have_argmax var (rows d) Hne) as (i & v & Harg).
  destruct values as [|x xs] eqn:Hvals; [done|]. subst values.
  pose proof (render_kpis_run st f d var x xs i v Hf Hnum Hts Hvals Harg) as Hrun.
  destruct (fold_max_spec xs x) as [Hmax1 Hmax2].
  destruct (fold_min_spec xs x) as [Hmin1 Hmin2].
  eexists _, _, _, _. split; [exact Hrun|]. cbn [ui].
  split; [|split; [exact Hmax1|split; [exact Hmin1|]]].
  - rewrite fold_add_sum. do 3 f_equal.
  - intros w Hw. split; [by apply Hmin2|by apply Hmax2].
Qed.

Lemma numeric_sample : numeric_column "kWh" sample_table.
Proof.
  split; [cbn; auto|]. cbn [sample_table rows].
  repeat (apply List.Forall_cons; [right; by eexists|]).
  apply List.Forall_nil.
Qed.

Lemma kpi_values_witness :
  let values := omap (row_num "kWh") (rows sample_table) in
  exists mx mn peak st',
    render_kpis 0%nat (Some "kWh"%string) sample_state = (Ok tt, st') /\
    ui st' = ui sample_state ++
             kpi_widgets (MMean (fold_right Z.add 0 values) (length values))
                         (MInt mx) (MInt mn) peak /\
    In mx values /\ In mn values /\
    (forall v, In v values -> mn <= v <= mx).
Proof.
  apply (kpi_values sample_state 0%nat sample_table "kWh").
  - reflexivity.
  - exact numeric_sample.
  - cbn. auto.
  - by vm_compute.
Defined.

Lemma filter_label_unique (rs1 rs2 : list Row) r :
  List.NoDup (map label (rs1 ++ r :: rs2)) ->
  List.filter (fun r0 => Nat.eqb (label r0) (label r)) (rs1 ++ r :: rs2) = [r].
Proof.
  intros HN. rewrite map_app in HN. cbn [map] in HN.
  apply List.NoDup_remove_2 in HN.
  rewrite List.filter_app. cbn [List.filter]. rewrite Nat.eqb_refl.
  rewrite !filter_bool_none; [done| |].
  - apply List.Forall_forall. intros r0 Hr0. apply Nat.eqb_neq. intros Heq.
    apply HN, List.in_or_app. right. rewrite <- Heq. by apply List.in_map.
  - apply List.Forall_forall. intros r0 Hr0. apply Nat.eqb_neq. intros Heq.
    apply HN, List.in_or_app. left. rewrite <- Heq. by apply List.in_map.
Qed.

(** X10: when the index labels of the table are distinct, the peak shown
    by [render_kpis] is the timestamp of the first row, in table order,
    that holds the maximum of the selected column: every row before it
    holds a smaller number, no row after it a larger one. *)
Theorem kpi_peak_is_first_maximum st f d var :
  heap st !! f = Some d ->
  numeric_column var d ->
  In "Timestamp"%string (columns d) ->
  omap (row_num var) (rows d) <> [] ->
  List.NoDup (map label (rows d)) ->
  exists rs1 r rs2 vmax st',
    rows d = rs1 ++ r :: rs2 /\
    row_num var r = Some vmax /\
    Forall (fun r' => forall w, row_num var r' = Some w -> w < vmax) rs1 /\
    Forall (fun r' => forall w, row_num var r' = Some w -> w <= vmax) rs2 /\
    render_kpis f (Some var) st = (Ok tt, st') /\
    In (WMetric "Peak Occurred At" (MPeak [cells r !! "Timestamp"])) (ui st').
Proof.
  intros Hf Hnum Hts Hne HN.
  destruct (values_have_argmax var (rows d) Hne) as (i & v & Harg).
  destruct (omap (row_num var) (rows d)) as [|x xs] eqn:Hvals; [done|].
  pose proof (render_kpis_run st f d var x xs i v Hf Hnum Hts Hvals Harg) as Hrun.
  pose proof (argmax_rows var (rows d) None) as Hspec. rewrite Harg in Hspec.
  destruct Hspec as [[? _]|(rs1 & r & rs2 & Hrows & Hl & Hv & _ & H1 & H2)];
    [done|].
  exists rs1, r, rs2, v. eexists. split; [done|]. split; [done|].
  split; [done|]. split; [done|]. split; [exact Hrun|].
  cbn [ui]. apply List.in_or_app. right. unfold kpi_widgets.
  do 3 right. left. do 2 f_equal. unfold loc_cell.
  rewrite Hrows, <- Hl. rewrite Hrows in HN.
  by rewrite (filter_label_unique _ _ _ HN).
Qed.

Lemma kpi_peak_is_first_maximum_witness :
  exists rs1 r rs2 vmax st',
    rows sample_table = rs1 ++ r :: rs2 /\
    row_num "kWh" r = Some vmax /\
    Forall (fun r' => forall w, row_num "kWh" r' = Some w -> w < vmax) rs1 /\
    Forall (fun r' => forall w, row_num "kWh" r' = Some w -> w <= vmax) rs2 /\
    render_kpis 0%nat (Some "kWh"%string) sample_state = (Ok tt, st') /\
    In (WMetric "Peak Occurred At" (MPeak [cells r !! "Timestamp"])) (ui st').
Proof.
  apply (kpi_peak_is_first_maximum sample_state 0%nat sample_table "kWh").
  - reflexivity.
  - exact numeric_sample.
  - cbn. auto.
  - by vm_compute.
  - cbn. repeat constructor; cbn; intuition discriminate.
Defined.

(** X11: on a table without a [Timestamp] column [render_kpis] shows the
    text "Aligned" in place of the peak and looks for no maximum; it then
    returns even when the table has no row, the three numbers being
    [nan]. *)
Theorem kpis_without_timestamp st f d var :
  heap st !! f = Some d ->
  numeric_column var d ->
  ~ In "Timestamp"%string (columns d) ->
  exists avg mx mn st',
    render_kpis f (Some var) st = (Ok tt, st') /\
    ui st' = ui st ++ kpi_widgets avg mx mn (MText "Aligned") /\
    (rows d = [] -> avg = MNaN /\ mx = MNaN /\ mn = MNaN).
Proof.
  intros Hf [Hvar Hnum] Hno. unfold render_kpis.
  rewrite (bind_ok _ _ _ _ _ (load_run _ _ _ Hf)).
  cbn [getitem_opt]. unfold getitem.
  rewrite (has_column_true d var) by (by apply list_elem_of_In).
  rewrite (has_column_false d "Timestamp") by (by rewrite list_elem_of_In).
  cbn [mbind Outcome_bind].
  unfold series_mean, series_max, series_min.
  rewrite (reduced_of_column _ _ Hnum), (not_datetime_column _ _ Hnum).
  cbn [mbind Outcome_bind].
  rewrite dropna_row_num.
  destruct (omap (row_num var) (rows d)) as [|x xs] eqn:Hvals.
  - rewrite !(bind_ok _ _ _ _ _ (lift_run _ _)).
    rewrite !(bind_ok _ _ _ _ _ (show_run _ _)). rewrite show_run.
    eexists _, _, _, _. split; [reflexivity|]. cbn [ui heap session].
    split; [by rewrite <- !app_assoc|done].
  - rewrite !(bind_ok _ _ _ _ _ (lift_run _ _)).
    rewrite !(bind_ok _ _ _ _ _ (show_run _ _)). rewrite show_run.
    eexists _, _, _, _. split; [reflexivity|]. cbn [ui heap session].
    split; [by rewrite <- !app_assoc|].
    intros Hrows. by rewrite Hrows in Hvals.
Qed.

Lemma kpis_without_timestamp_witness :
  exists avg mx mn st',
    render_kpis 0%nat (Some "kWh"%string) two_period_state = (Ok tt, st') /\
    ui st' = ui two_period_state ++ kpi_widgets avg mx mn (MText "Aligned") /\
    (rows two_period_table = [] -> avg = MNaN /\ mx = MNaN /\ mn = MNaN).
Proof.
  apply (kpis_without_timestamp two_period_state 0%nat two_period_table "kWh").
  - reflexivity.
  - split; [cbn; auto|]. cbn [two_period_table rows].
    repeat (apply List.Forall_cons; [right; by eexists|]).
    apply List.Forall_nil.
  - cbn. intros [H|[H|[]]]; discriminate.
Defined.

(** ** The totals add up *)











(** ** The bars of a month comparison *)












(** ** The sidebar *)

Ltac inv_show H :=
  let s := fresh "s" in
  let Hs := fresh "Hs" in
  apply bind_inv in H as ([] & s & Hs & H);
  rewrite show_run in Hs; injection Hs as <-.

Lemma sidebar_inv parse inp st data var date_range months weeks st' :
  render_sidebar parse inp st =
    (Ok (Some (data, var, date_range, months, weeks)), st') ->
  exists h d0 conv mind maxd ts,
    let d := with_timestamps conv d0 in
    match uploaded_file inp with
    | Some f => h = heap st ++ [f] /\ data = length (heap st) /\
                session st' = mkSession (Some data) (app_mode (session st))
    | None => h = heap st /\ csv_data (session st) = Some data /\
              session st' = session st
    end /\
    h !! data = Some d0 /\
    In "Timestamp"%string (columns d0) /\
    to_datetime_series parse (timestamp_col d0) = Ok conv /\
    heap st' = <[data := d]> h /\
    ui st' = ui st ++ sidebar_upload ++
             sidebar_selectors (tail (columns d)) mind maxd
               (unique (to_period_M_str ts)) (unique (to_period_W_str ts)) /\
    var = tail (columns d) !! var_choice inp /\
    date_method (time_min (timestamp_col d)) = Ok mind /\
    date_method (time_max (timestamp_col d)) = Ok maxd /\
    match default (DTuple [mind; maxd]) (raw_date inp) with
    | DTuple [a; b] => date_range = (a, b)
    | DTuple (a :: _) => date_range = (a, a)
    | DTuple [] => False
    | DSingle a => date_range = (a, a)
    end /\
    dt (timestamp_col d) = Ok ts /\
    months = multiselect (unique (to_period_M_str ts)) (picked_months inp) /\
    weeks = multiselect (unique (to_period_W_str ts)) (picked_weeks inp).
Proof.
  unfold render_sidebar. intros H.
  inv_show H. inv_show H. inv_show H.
  apply bind_inv in H as ([] & s2 & H2 & H).
  apply bind_inv in H as (s & s3 & H3 & H).
  injection H3 as <- <-.
  destruct (csv_data (session s2)) as [data'|] eqn:Hcsv; [|done].
  apply bind_inv in H as (d0 & s4 & H4 & H).
  apply load_inv in H4 as [Hd0 ->].
  apply bind_inv in H as (conv & s5 & H5 & H).
  apply lift_inv in H5 as [H5 ->].
  apply outcome_bind_inv in H5 as (col & Hcol & Hconv).
  apply getitem_inv in Hcol as [Hts ->].
  apply bind_inv in H as ([] & s6 & H6 & H).
  rewrite (setitem_series_run _ _ _ _ _ Hd0) in H6. injection H6 as <-.
  apply bind_inv in H as (d & s7 & H7 & H).
  apply load_inv in H7 as [Hd ->]. cbn [heap] in Hd.
  rewrite list_lookup_insert_eq in Hd by (by eapply lookup_lt_Some).
  injection Hd as <-. fold (with_timestamps conv d0) in H.
  set (d := with_timestamps conv d0) in *.
  inv_show H. inv_show H. inv_show H.
  apply bind_inv in H as (mind & s8 & H8 & H).
  apply lift_inv in H8 as [H8 ->].
  apply outcome_bind_inv in H8 as (col1 & Hcol1 & Hmin).
  apply getitem_inv in Hcol1 as [_ ->].
  apply bind_inv in H as (maxd & s9 & H9 & H).
  apply lift_inv in H9 as [H9 ->].
  apply outcome_bind_inv in H9 as (col2 & Hcol2 & Hmax).
  apply getitem_inv in Hcol2 as [_ ->].
  inv_show H.
  apply bind_inv in H as (dr & s10 & H10 & H).
  apply lift_inv in H10 as [H10 ->].
  inv_show H.
  apply bind_inv in H as (mo & s11 & H11 & H).
  apply lift_inv in H11 as [H11 ->].
  apply outcome_bind_inv in H11 as (col3 & Hcol3 & H11).
  apply getitem_inv in Hcol3 as [_ ->].
  apply outcome_bind_inv in H11 as (ts & Hdt & [= <-]).
  inv_show H. inv_show H.
  apply bind_inv in H as (wo & s12 & H12 & H).
  apply lift_inv in H12 as [H12 ->].
  apply outcome_bind_inv in H12 as (col4 & Hcol4 & H12).
  apply getitem_inv in Hcol4 as [_ ->].
  apply outcome_bind_inv in H12 as (ts' & Hdt' & [= <-]).
  assert (ts' = ts) as -> by (unfold timestamp_col in *; congruence).
  inv_show H.
  injection H as <- <- <- <- <- <-.
  cbn [heap session ui] in *.
  exists (heap s2), d0, conv, mind, maxd, ts. cbn zeta. fold d.
  assert (Hup : match uploaded_file inp with
                | Some f => heap s2 = heap st ++ [f] /\
                            data' = length (heap st) /\
                            session s2 = mkSession (Some data')
                                           (app_mode (session st)) /\
                            ui s2 = ui st ++ sidebar_upload
                | None => heap s2 = heap st /\
                          csv_data (session st) = Some data' /\
                          session s2 = session st /\
                          ui s2 = ui st ++ sidebar_upload
                end).
  { unfold sidebar_upload, sidebar_title.
    destruct (uploaded_file inp) as [f|].
    - injection H2 as <-. cbn [session csv_data heap ui] in *.
      injection Hcsv as <-. by rewrite <- !app_assoc.
    - injection H2 as <-. cbn [session csv_data heap ui] in *.
      by rewrite <- !app_assoc. }
  repeat split; try done.
  - destruct (uploaded_file inp); destruct Hup as (? & ? & ? & ?); done.
  - destruct (uploaded_file inp) as [f|]; destruct Hup as (_ & _ & _ & ->);
      unfold sidebar_selectors; by rewrite <- !app_assoc.
  - destruct (default _ _) as [[|a [|b [|c l]]]|a]; congruence.
Qed.
Lemma mapM_Forall_out {A B} (f : A -> Outcome B) (P : B -> Prop) (l : list A) :
  (forall a b, f a = Ok b -> P b) ->
  forall bs, mapM f l = Ok bs -> Forall P bs.
Proof.
  intros Hf. induction l as [|a l IH]; intros bs; cbn [mapM].
  - intros [= <-]. constructor.
  - destruct (f a) as [b|e] eqn:Ha; cbn; [|done].
    destruct (mapM f l) as [bs'|e]; cbn; [|done].
    intros [= <-]. constructor; [by eapply Hf|by apply IH].
Qed.

Lemma converted_cells parse s conv :
  to_datetime_series parse s = Ok conv ->
  length conv = length s /\
  Forall (fun c => c = None \/ exists t, c = Some (CTime t)) conv.
Proof.
  intros H. split; [by eapply mapM_length|].
  eapply mapM_Forall_out; [|exact H].
  intros [[n|x|t]|] b; cbn; try destruct (parse x); intros [= <-]; eauto.
Qed.

Lemma with_timestamps_rows (rs : list Row) conv :
  length conv = length rs ->
  map label (zip_with (set_cell "Timestamp") rs conv) = map label rs /\
  map (fun r => cells r !! "Timestamp")
      (zip_with (set_cell "Timestamp") rs conv) = conv /\
  forall c, c <> "Timestamp"%string ->
    map (fun r => cells r !! c) (zip_with (set_cell "Timestamp") rs conv) =
    map (fun r => cells r !! c) rs.
Proof.
  revert conv. induction rs as [|r rs IH]; intros [|v conv] Hlen; try done.
  injection Hlen as Hlen. destruct (IH conv Hlen) as (H1 & H2 & H3).
  cbn [zip_with map]. rewrite H1, H2. repeat split.
  - f_equal. unfold set_cell. cbn [cells].
    destruct v; [apply lookup_insert_eq | apply lookup_delete_eq].
  - intros c Hc. rewrite (H3 c Hc). f_equal. by apply cells_tag_other.
Qed.

Lemma with_timestamps_datetime parse d conv :
  In "Timestamp"%string (columns d) ->
  to_datetime_series parse (timestamp_col d) = Ok conv ->
  datetime_column (with_timestamps conv d) /\
  columns (with_timestamps conv d) = columns d.
Proof.
  intros Hts Hconv. apply converted_cells in Hconv as [Hlen Hcells].
  unfold timestamp_col in Hlen. rewrite length_map in Hlen.
  destruct (with_timestamps_rows (rows d) conv Hlen) as (_ & Hcol & _).
  assert (Hcols : add_column (columns d) "Timestamp" = columns d).
  { unfold add_column. rewrite bool_decide_eq_true_2; [done|].
    by apply list_elem_of_In. }
  split; [|exact Hcols]. split; [cbn; by rewrite Hcols|].
  cbn [with_timestamps rows]. rewrite <- Hcol in Hcells.
  by apply Forall_map in Hcells.
Qed.

(** X15: when [render_sidebar] returns a selection, the table of the
    session has a [Timestamp] column in which every cell is a timestamp
    or missing: whatever was uploaded, the engine is handed a datetime
    column. *)
Theorem sidebar_hands_datetime_column parse inp st data var date_range months
    weeks st' :
  render_sidebar parse inp st =
    (Ok (Some (data, var, date_range, months, weeks)), st') ->
  exists d,
    csv_data (session st') = Some data /\
    heap st' !! data = Some d /\
    datetime_column d.
Proof.
  intros H.
  apply sidebar_inv in H
    as (h & d0 & conv & mind & maxd & ts & Hup & Hd0 & Hts & Hconv & Hheap & _).
  exists (with_timestamps conv d0). split; [|split].
  - destruct (uploaded_file inp); destruct Hup as (_ & Hs & ->); [done|].
    done.
  - rewrite Hheap. apply list_lookup_insert_eq. by eapply lookup_lt_Some.
  - by eapply with_timestamps_datetime.
Qed.

Lemma sidebar_hands_datetime_column_witness :
  exists st' out d,
    render_sidebar parse_sample (upload one_reading_csv) fresh_state =
      (Ok (Some out), st') /\
    csv_data (session st') = Some out.1.1.1.1 /\
    heap st' !! out.1.1.1.1 = Some d /\
    datetime_column d.
Proof.
  destruct (render_sidebar parse_sample (upload one_reading_csv) fresh_state)
    as [[[[[[[data var] dr] months] weeks]|]|e] st'] eqn:Hrun;
    try (vm_compute in Hrun; discriminate).
  destruct (sidebar_hands_datetime_column _ _ _ _ _ _ _ _ _ Hrun)
    as (d & H1 & H2 & H3).
  exists st', (data, var, dr, months, weeks), d. auto.
Defined.

Lemma set_cell_same c (r : Row) : set_cell c r (cells r !! c) = r.
Proof.
  destruct r as [l m]. unfold set_cell. cbn [label cells]. f_equal.
  destruct (m !! c) as [x|] eqn:Hx.
  - by apply insert_id.
  - by apply delete_id.
Qed.

Lemma datetime_conversion_id parse d :
  datetime_column d ->
  to_datetime_series parse (timestamp_col d) = Ok (timestamp_col d) /\
  with_timestamps (timestamp_col d) d = d.
Proof.
  intros [Hts Hcells]. split.
  - unfold to_datetime_series, timestamp_col.
    induction Hcells as [|r rs Hr _ IH]; [done|].
    cbn [map mapM]. rewrite IH.
    destruct Hr as [->|[t ->]]; done.
  - destruct d as [cs rs]. unfold with_timestamps, timestamp_col.
    cbn [columns rows] in *. f_equal.
    + unfold add_column. rewrite bool_decide_eq_true_2; [done|].
      by apply list_elem_of_In.
    + rewrite zip_with_map_self. clear.
      induction rs as [|r rs IH]; [done|]. cbn. by rewrite set_cell_same, IH.
Qed.

Lemma read_only_bind {A B} (m : M A) (k : A -> M B) :
  read_only m -> (forall a, read_only (k a)) -> read_only (m ≫= k).
Proof.
  intros Hm Hk st. destruct (Hm st) as [H1 H2]. unfold mbind, M_bind.
  destruct (m st) as [[a|e] s1]; cbn in *; [|done].
  destruct (Hk a s1) as [K1 K2]. split; congruence.
Qed.

Lemma read_only_show w : read_only (show w).
Proof. by intros st. Qed.

Lemma read_only_lift {A} (o : Outcome A) : read_only (lift o).
Proof. by intros st. Qed.

Lemma read_only_ret {A} (a : A) : read_only (mret a).
Proof. by intros st. Qed.

(** X16: on a run without a new file, when the table of the session
    already has a datetime [Timestamp] column, [render_sidebar] leaves
    the store and the session exactly as they are, whether it returns or
    raises: converting the column again changes nothing. *)
Theorem rerun_keeps_table parse inp st data d :
  uploaded_file inp = None ->
  csv_data (session st) = Some data ->
  heap st !! data = Some d ->
  datetime_column d ->
  heap (render_sidebar parse inp st).2 = heap st /\
  session (render_sidebar parse inp st).2 = session st.
Proof.
  intros Hup Hcsv Hd Hdt.
  destruct (datetime_conversion_id parse d Hdt) as [Hconv Hid].
  unfold render_sidebar. rewrite Hup.
  rewrite !(bind_ok _ _ _ _ _ (show_run _ _)).
  erewrite bind_ok; [|reflexivity].
  erewrite bind_ok; [|reflexivity].
  cbn [session]. rewrite Hcsv.
  set (s1 := mkState _ _ _).
  assert (Hd1 : heap s1 !! data = Some d) by done.
  rewrite (bind_ok _ _ _ _ _ (load_run _ _ _ Hd1)).
  rewrite (getitem_timestamp d) by (apply list_elem_of_In, Hdt).
  cbn [mbind Outcome_bind]. fold (timestamp_col d). rewrite Hconv.
  rewrite (bind_ok _ _ _ _ _ (lift_run _ _)).
  rewrite (bind_ok _ _ _ _ _ (setitem_series_run _ _ _ _ _ Hd1)).
  fold (with_timestamps (timestamp_col d) d). rewrite Hid.
  replace (<[data:=d]> (heap s1)) with (heap s1)
    by (symmetry; apply (list_insert_id _ _ _ Hd1)).
  change (mkState (heap s1) (session s1) (ui s1)) with s1.
  rewrite (bind_ok _ _ _ _ _ (load_run _ _ _ Hd1)).
  match goal with
  | |- heap (?c ?s).2 = _ /\ _ => assert (Hro : read_only c)
  end.
  { repeat (apply read_only_bind;
              [first [apply read_only_show|apply read_only_lift]|intros ?]).
    apply read_only_ret. }
  exact (Hro s1).
Qed.

Lemma datetime_sample : datetime_column sample_table.
Proof.
  split; [cbn; auto|]. cbn [sample_table rows].
  repeat (apply List.Forall_cons; [right; by eexists|]).
  apply List.Forall_nil.
Qed.

Lemma rerun_keeps_table_witness :
  heap (render_sidebar parse_sample
          (mkInput false false false None 0 None [] []) sample_state).2 =
    heap sample_state /\
  session (render_sidebar parse_sample
             (mkInput false false false None 0 None [] []) sample_state).2 =
    session sample_state.
Proof.
  apply (rerun_keeps_table parse_sample _ sample_state 0%nat sample_table).
  - reflexivity.
  - reflexivity.
  - reflexivity.
  - exact datetime_sample.
Defined.

Lemma sidebar_variable_is_column_witness :
  exists d,
    heap (render_sidebar parse_sample (upload one_reading_csv) fresh_state).2
      !! 0%nat = Some d /\
    In "kWh"%string (columns d).
Proof.
  apply (sidebar_variable_is_column parse_sample (upload one_reading_csv)
           fresh_state 0%nat "kWh" (jan31, jan31) [] []).
  vm_compute. reflexivity.
Defined.

(** X18: when the date widget is left at its default, the range
    [render_sidebar] hands over runs from the date of the earliest
    timestamp of the table to the date of the latest one, and its start
    is not after its end. *)
Theorem default_range_spans_table parse inp st data var date_range months
    weeks st' :
  render_sidebar parse inp st =
    (Ok (Some (data, var, date_range, months, weeks)), st') ->
  raw_date inp = None ->
  exists d tmin tmax,
    heap st' !! data = Some d /\
    In tmin (times (timestamp_col d)) /\
    In tmax (times (timestamp_col d)) /\
    (forall t, In t (times (timestamp_col d)) -> tmin <= t <= tmax) /\
    date_range = (Calendar.date_of tmin, Calendar.date_of tmax) /\
    Calendar.date_of tmin <= Calendar.date_of tmax.
Proof.
  intros H Hraw.
  apply sidebar_inv in H
    as (h & d0 & conv & mind & maxd & ts & _ & Hd0 & _ & _ & Hheap & _ & _
        & Hmin & Hmax & Hdr & _).
  rewrite Hraw in Hdr. cbn [default] in Hdr.
  set (d := with_timestamps conv d0) in *.
  unfold time_min in Hmin. unfold time_max in Hmax.
  destruct (times (timestamp_col d)) as [|t l] eqn:Ht; [done|].
  cbn [date_method] in Hmin, Hmax.
  injection Hmin as <-. injection Hmax as <-.
  destruct (fold_min_spec l t) as [Hmin1 Hmin2].
  destruct (fold_max_spec l t) as [Hmax1 Hmax2].
  exists d, (fold_left Z.min l t), (fold_left Z.max l t).
  rewrite !Ht.
  split; [|split; [done|split; [done|split; [|split; [done|]]]]].
  - rewrite Hheap. apply list_lookup_insert_eq. by eapply lookup_lt_Some.
  - intros x Hx. split; [by apply Hmin2|by apply Hmax2].
  - unfold Calendar.date_of, Calendar.NS_PER_DAY.
    apply Z.div_le_mono; [lia|].
    specialize (Hmin2 t (or_introl eq_refl)).
    specialize (Hmax2 t (or_introl eq_refl)). lia.
Qed.

Lemma default_range_spans_table_witness :
  exists d tmin tmax,
    heap (render_sidebar parse_sample (upload one_reading_csv) fresh_state).2
      !! 0%nat = Some d /\
    In tmin (times (timestamp_col d)) /\
    In tmax (times (timestamp_col d)) /\
    (forall t, In t (times (timestamp_col d)) -> tmin <= t <= tmax) /\
    (jan31, jan31) = (Calendar.date_of tmin, Calendar.date_of tmax) /\
    Calendar.date_of tmin <= Calendar.date_of tmax.
Proof.
  apply (default_range_spans_table parse_sample (upload one_reading_csv)
           fresh_state 0%nat (Some "kWh"%string) (jan31, jan31) [] []).
  - vm_compute. reflexivity.
  - reflexivity.
Defined.

(** X19: a file that [render_sidebar] accepts replaces the table of the
    session without touching what the store held: the session points to a
    new frame, which has the columns and the index labels of the file and
    its cells in every column other than [Timestamp]; the frames that
    were there are all unchanged. *)
Theorem upload_replaces_table parse inp st f data var date_range months
    weeks st' :
  uploaded_file inp = Some f ->
  render_sidebar parse inp st =
    (Ok (Some (data, var, date_range, months, weeks)), st') ->
  exists d,
    data = length (heap st) /\
    heap st' = heap st ++ [d] /\
    session st' = mkSession (Some data) (app_mode (session st)) /\
    columns d = columns f /\
    map label (rows d) = map label (rows f) /\
    forall c, c <> "Timestamp"%string ->
      map (fun r => cells r !! c) (rows d) =
      map (fun r => cells r !! c) (rows f).
Proof.
  intros Hup H.
  apply sidebar_inv in H
    as (h & d0 & conv & mind & maxd & ts & Hu & Hd0 & Hts & Hconv & Hheap & _).
  rewrite Hup in Hu. destruct Hu as (-> & -> & Hsess).
  rewrite lookup_snoc in Hd0. injection Hd0 as <-.
  exists (with_timestamps conv f). split; [done|].
  split; [by rewrite Hheap, insert_snoc|]. split; [done|].
  destruct (with_timestamps_datetime parse f conv Hts Hconv) as [_ Hcols].
  split; [done|].
  apply converted_cells in Hconv as [Hlen _].
  unfold timestamp_col in Hlen. rewrite length_map in Hlen.
  destruct (with_timestamps_rows (rows f) conv Hlen) as (Hl & _ & Hc).
  split; [exact Hl|exact Hc].
Qed.

Lemma upload_replaces_table_witness :
  exists d,
    0%nat = length (heap fresh_state) /\
    heap (render_sidebar parse_sample (upload one_reading_csv) fresh_state).2
      = heap fresh_state ++ [d] /\
    session (render_sidebar parse_sample (upload one_reading_csv)
               fresh_state).2 =
      mkSession (Some 0%nat) (app_mode (session fresh_state)) /\
    columns d = columns one_reading_csv /\
    map label (rows d) = map label (rows one_reading_csv) /\
    forall c, c <> "Timestamp"%string ->
      map (fun r => cells r !! c) (rows d) =
      map (fun r => cells r !! c) (rows one_reading_csv).
Proof.
  apply (upload_replaces_table parse_sample (upload one_reading_csv)
           fresh_state one_reading_csv 0%nat (Some "kWh"%string)
           (jan31, jan31) [] []).
  - reflexivity.
  - vm_compute. reflexivity.
Defined.

Lemma dt_inv (rs : list Row) ts :
  dt (map (fun r => cells r !! "Timestamp") rs) = Ok ts ->
  ts = map row_time rs.
Proof.
  unfold dt. revert ts. induction rs as [|r rs IH]; intros ts; cbn [map mapM].
  - by intros [= <-].
  - unfold row_time at 1.
    destruct (cells r !! "Timestamp") as [[n|x|t]|]; cbn; try done.
    + destruct (mapM _ _) as [ts'|]; cbn; [|done].
      intros [= <-]. by rewrite (IH ts').
    + destruct (mapM _ _) as [ts'|]; cbn; [|done].
      intros [= <-]. by rewrite (IH ts').
Qed.

Lemma multiselect_offered lbl (rs : list Row) picks m :
  In m (multiselect (unique (period_str lbl (map row_time rs))) picks) ->
  In m picks /\ exists r, In r rs /\ selects lbl m r = true.
Proof.
  unfold multiselect. intros Hin.
  apply List.filter_In in Hin as [Hp Hopt]. split; [done|].
  apply bool_decide_eq_true in Hopt.
  apply list_elem_of_In in Hopt. rewrite In_unique in Hopt.
  unfold period_str in Hopt. rewrite map_map in Hopt.
  apply List.in_map_iff in Hopt as (r & Hr & Hin).
  exists r. split; [done|]. unfold selects. rewrite Hr. apply String.eqb_refl.
Qed.

(** X20: when every row of the table has a timestamp, every month and
    every week that [render_sidebar] hands over is one the user picked
    and one that selects at least one row of the table: a period with no
    reading cannot come out of the sidebar. *)
Theorem offered_periods_have_rows parse inp st data var date_range months
    weeks st' d :
  render_sidebar parse inp st =
    (Ok (Some (data, var, date_range, months, weeks)), st') ->
  heap st' !! data = Some d ->
  measurement_table d ->
  (forall m, In m months ->
     In m (picked_months inp) /\
     exists r, In r (rows d) /\ selects Calendar.month_label m r = true) /\
  (forall w, In w weeks ->
     In w (picked_weeks inp) /\
     exists r, In r (rows d) /\ selects Calendar.week_label w r = true).
Proof.
  intros H Hd _.
  apply sidebar_inv in H
    as (h & d0 & conv & mind & maxd & ts & _ & Hd0 & _ & _ & Hheap & _ & _
        & _ & _ & _ & Hdt & -> & ->).
  rewrite Hheap, list_lookup_insert_eq in Hd by (by eapply lookup_lt_Some).
  injection Hd as <-.
  apply dt_inv in Hdt as ->. split.
  - intros m. apply multiselect_offered.
  - intros w. apply multiselect_offered.
Qed.

Lemma offered_periods_have_rows_witness :
  let d := mkDF ["Timestamp"; "kWh"]%string
                [reading 0 (stamp 2024 1 31 13 0) 9] in
  (forall m, In m ["2024-01"]%string ->
     In m ["2024-01"; "2023-12"]%string /\
     exists r, In r (rows d) /\ selects Calendar.month_label m r = true) /\
  (forall w, In w [] ->
     In w [] /\
     exists r, In r (rows d) /\ selects Calendar.week_label w r = true).
Proof.
  apply (offered_periods_have_rows parse_sample
           (mkInput false false false (Some one_reading_csv) 0 None
              ["2024-01"; "2023-12"]%string [])
           fresh_state 0%nat (Some "kWh"%string) (jan31, jan31)
           ["2024-01"]%string []
           (render_sidebar parse_sample
              (mkInput false false false (Some one_reading_csv) 0 None
                 ["2024-01"; "2023-12"]%string [])
              fresh_state).2).
  - vm_compute. reflexivity.
  - vm_compute. reflexivity.
  - split; [by left|]. repeat constructor; by eexists.
Defined.

(** ** Navigation and the session *)

Section SessionRules.

Variable R : Session -> Session -> Prop.
Hypothesis R_refl : forall s, R s s.
Hypothesis R_trans : forall s1 s2 s3, R s1 s2 -> R s2 s3 -> R s1 s3.

Lemma safe_bind {A B} (m : M A) (k : A -> M B) :
  session_safe R m -> (forall a, session_safe R (k a)) ->
  session_safe R (m ≫= k).
Proof.
  intros Hm Hk st. specialize (Hm st). unfold mbind, M_bind.
  destruct (m st) as [[a|e] s1]; cbn in *; [|done].
  eapply R_trans; [exact Hm|apply Hk].
Qed.

Lemma safe_ret {A} (a : A) : session_safe R (mret a).
Proof. intros st. apply R_refl. Qed.

Lemma safe_lift {A} (o : Outcome A) : session_safe R (lift o).
Proof. intros st. apply R_refl. Qed.

Lemma safe_raise {A} e : session_safe R (@raise A e).
Proof. intros st. apply R_refl. Qed.

Lemma safe_load r : session_safe R (load r).
Proof. intros st. unfold load. destruct (heap st !! r); apply R_refl. Qed.

Lemma safe_alloc d : session_safe R (alloc d).
Proof. intros st. apply R_refl. Qed.

Lemma safe_store r d : session_safe R (store r d).
Proof. intros st. apply R_refl. Qed.

Lemma safe_show w : session_safe R (show w).
Proof. intros st. apply R_refl. Qed.

Lemma safe_frame {A} n (Q : A -> Prop) (c : M A) :
  (forall st, (n st <= length (heap st))%nat) ->
  (forall st, frame_safe (n st) Q c) -> session_safe R c.
Proof.
  intros Hn Hc st. destruct (Hc st st (Hn st)) as (_ & _ & -> & _).
  apply R_refl.
Qed.

Lemma safe_build data var dr months weeks :
  session_safe R (build_comparison_df data var dr months weeks).
Proof.
  apply (safe_frame (fun _ => 0%nat) (fun _ => True)); [intros; lia|].
  intros st. apply frame_build_comparison_df.
Qed.

Lemma safe_setitem_series r c s : session_safe R (setitem_series r c s).
Proof.
  unfold setitem_series. apply safe_bind; [apply safe_load|].
  intros d. apply safe_store.
Qed.

Lemma safe_px_chart k r x y color : session_safe R (px_chart k r x y color).
Proof.
  unfold px_chart. apply safe_bind; [apply safe_load|]. intros d.
  destruct (_ && _); [apply safe_ret|apply safe_raise].
Qed.

Lemma safe_render_kpis f var : session_safe R (render_kpis f var).
Proof.
  unfold render_kpis. apply safe_bind; [apply safe_load|]. intros d.
  repeat (apply safe_bind; [first [apply safe_lift|apply safe_show]|intros ?]).
  apply safe_show.
Qed.

Lemma safe_aggregate f var : session_safe R (aggregate_by_period f var).
Proof.
  unfold aggregate_by_period. apply safe_bind; [apply safe_load|]. intros d.
  repeat (apply safe_bind; [apply safe_lift|intros ?]).
  apply safe_alloc.
Qed.

Lemma safe_get_session : session_safe R get_session.
Proof. intros st. apply R_refl. Qed.

Lemma safe_sidebar parse inp :
  session_safe R (match uploaded_file inp with
                  | Some f => r ← alloc f; set_csv_data r
                  | None => mret tt
                  end) ->
  session_safe R (render_sidebar parse inp).
Proof.
  intros Hup. unfold render_sidebar.
  do 3 (apply safe_bind; [apply safe_show|intros _]).
  apply safe_bind; [exact Hup|intros _].
  apply safe_bind; [apply safe_get_session|intros s].
  destruct (csv_data s) as [data|]; [|apply safe_ret].
  apply safe_bind; [apply safe_load|]. intros d.
  apply safe_bind; [apply safe_lift|]. intros conv.
  apply safe_bind; [apply safe_setitem_series|]. intros _.
  apply safe_bind; [apply safe_load|]. intros d'.
  repeat (apply safe_bind; [first [apply safe_lift|apply safe_show]|intros ?]).
  apply safe_ret.
Qed.

Lemma safe_dashboard_body (out : option SidebarOut) :
  session_safe R
    match out with
    | None => show (WWarning "Upload a CSV to begin.")
    | Some (data, selected_var, date_range, months, weeks) =>
        '(final_df, trend_plot) ←
           build_comparison_df data selected_var date_range months weeks;
        render_kpis final_df selected_var;;
        show (WMarkdown "<div class='section-title'>Data Preview</div>");;
        shown ← load final_df;
        show (WDataframe shown);;
        show (WPlotly trend_plot);;
        totals ← aggregate_by_period final_df selected_var;
        fig_tot ← px_chart BarChart totals "Period" selected_var None;
        show (WPlotly fig_tot)
    end.
Proof.
  destruct out as [[[[[data var] dr] months] weeks]|]; [|apply safe_show].
  apply safe_bind; [apply safe_build|]. intros [f fig].
  apply safe_bind; [apply safe_render_kpis|]. intros _.
  apply safe_bind; [apply safe_show|]. intros _.
  apply safe_bind; [apply safe_load|]. intros shown.
  apply safe_bind; [apply safe_show|]. intros _.
  apply safe_bind; [apply safe_show|]. intros _.
  apply safe_bind; [apply safe_aggregate|]. intros totals.
  apply safe_bind; [apply safe_px_chart|]. intros fig_tot.
  apply safe_show.
Qed.

End SessionRules.

Lemma mode_step_refl s : mode_step s s.
Proof. by left. Qed.

Lemma mode_step_trans s1 s2 s3 :
  mode_step s1 s2 -> mode_step s2 s3 -> mode_step s1 s3.
Proof.
  unfold mode_step. intros [H1|[H1|H1]] [H2|[H2|H2]]; rewrite ?H2, ?H1; auto.
Qed.

Lemma same_table_refl s : same_table s s.
Proof. done. Qed.

Lemma same_table_trans s1 s2 s3 :
  same_table s1 s2 -> same_table s2 s3 -> same_table s1 s3.
Proof. unfold same_table. congruence. Qed.

Lemma mode_navbar inp : session_safe mode_step (render_navbar inp).
Proof.
  intros st. unfold render_navbar, mbind, M_bind, show, raise, set_app_mode,
    get_session, put_session, mret, M_ret.
  destruct (refresh_clicked inp), (back_clicked inp); cbn;
    unfold mode_step; cbn; auto.
Qed.

Lemma table_navbar inp : session_safe same_table (render_navbar inp).
Proof.
  intros st. unfold render_navbar, mbind, M_bind, show, raise, set_app_mode,
    get_session, put_session, mret, M_ret.
  by destruct (refresh_clicked inp), (back_clicked inp).
Qed.

Lemma mode_sidebar parse inp : session_safe mode_step (render_sidebar parse inp).
Proof.
  apply (safe_sidebar mode_step mode_step_refl mode_step_trans).
  destruct (uploaded_file inp); intros st; by left.
Qed.

Lemma table_sidebar parse inp :
  uploaded_file inp = None ->
  session_safe same_table (render_sidebar parse inp).
Proof.
  intros Hup.
  apply (safe_sidebar same_table same_table_refl same_table_trans).
  rewrite Hup. by apply safe_ret.
Qed.

Lemma mode_dashboard parse inp : session_safe mode_step (dashboard parse inp).
Proof.
  unfold dashboard, setup_page.
  repeat (apply safe_bind; [apply mode_step_trans|
                            by apply safe_show; apply mode_step_refl|intros _]).
  apply safe_bind; [apply mode_step_trans|apply mode_navbar|]. intros _.
  apply safe_bind; [apply mode_step_trans|apply mode_sidebar|]. intros out.
  apply (safe_dashboard_body mode_step mode_step_refl mode_step_trans).
Qed.

Lemma table_dashboard parse inp :
  uploaded_file inp = None ->
  session_safe same_table (dashboard parse inp).
Proof.
  intros Hup. unfold dashboard, setup_page.
  repeat (apply safe_bind; [apply same_table_trans|by apply safe_show|intros _]).
  apply safe_bind; [apply same_table_trans|apply table_navbar|]. intros _.
  apply safe_bind; [apply same_table_trans|by apply table_sidebar|]. intros out.
  apply (safe_dashboard_body same_table same_table_refl same_table_trans).
Qed.

Lemma mode_landing inp : session_safe mode_step (landing_page inp).
Proof.
  intros st. unfold landing_page, mbind, M_bind, show, raise, set_app_mode,
    get_session, put_session, mret, M_ret.
  destruct (go_clicked inp); cbn; unfold mode_step; cbn; auto.
Qed.

Lemma table_landing inp : session_safe same_table (landing_page inp).
Proof.
  intros st. unfold landing_page, mbind, M_bind, show, raise, set_app_mode,
    get_session, put_session, mret, M_ret.
  by destruct (go_clicked inp).
Qed.

Lemma router_pages parse inp st :
  router parse inp st =
    match app_mode (session st) with
    | None =>
        landing_page inp
          (mkState (heap st)
                   (mkSession (csv_data (session st)) (Some "landing"%string))
                   (ui st))
    | Some mode =>
        if String.eqb mode "landing" then landing_page inp st
        else if String.eqb mode "dashboard" then dashboard parse inp st
        else (Ok tt, st)
    end.
Proof.
  destruct st as [h [c [mode|]] u];
    unfold router, mbind, M_bind, get_session, set_app_mode, put_session, mret,
      M_ret; cbn [session app_mode csv_data heap ui]; [|reflexivity].
  destruct (String.eqb mode "landing"); [done|].
  by destruct (String.eqb mode "dashboard").
Qed.

(** X21: whatever the user does, one run of [router] leaves the session
    on one of the two pages: from a session that is new, on the landing
    page or on the dashboard, the mode afterwards is "landing" or
    "dashboard", also when the run raises. *)
Theorem router_keeps_a_page parse inp st :
  app_mode (session st) = None \/
  app_mode (session st) = Some "landing"%string \/
  app_mode (session st) = Some "dashboard"%string ->
  app_mode (session (router parse inp st).2) = Some "landing"%string \/
  app_mode (session (router parse inp st).2) = Some "dashboard"%string.
Proof.
  intros Hmode. rewrite router_pages.
  destruct Hmode as [H|[H|H]]; rewrite H.
  - destruct (mode_landing inp
                (mkState (heap st)
                   (mkSession (csv_data (session st)) (Some "landing"%string))
                   (ui st))) as [H1|H1]; [left; by rewrite H1|done].
  - cbn. destruct (mode_landing inp st) as [H1|H1];
      [left; by rewrite H1, H|done].
  - cbn. destruct (mode_dashboard parse inp st) as [H1|H1];
      [right; by rewrite H1, H|done].
Qed.

Lemma router_keeps_a_page_witness :
  app_mode (session (router parse_sample (upload one_reading_csv)
                       fresh_state).2) = Some "landing"%string \/
  app_mode (session (router parse_sample (upload one_reading_csv)
                       fresh_state).2) = Some "dashboard"%string.
Proof.
  apply (router_keeps_a_page parse_sample (upload one_reading_csv) fresh_state).
  right. right. reflexivity.
Defined.

(** X22: a run without a new file in the uploader keeps the table of the
    session: whatever page is shown and whatever button is pressed,
    [router] leaves [csv_data] as it was, also when the run raises. *)
Theorem table_survives_navigation parse inp st :
  uploaded_file inp = None ->
  csv_data (session (router parse inp st).2) = csv_data (session st).
Proof.
  intros Hup. rewrite router_pages.
  destruct (app_mode (session st)) as [mode|].
  - destruct (String.eqb mode "landing"); [apply table_landing|].
    destruct (String.eqb mode "dashboard"); [by apply table_dashboard|done].
  - apply (table_landing inp
             (mkState (heap st)
                (mkSession (csv_data (session st)) (Some "landing"%string))
                (ui st))).
Qed.

Lemma table_survives_navigation_witness :
  csv_data (session (router parse_sample
                       (mkInput false true false None 0 None [] [])
                       sample_state).2) =
  csv_data (session sample_state).
Proof.
  apply (table_survives_navigation parse_sample
           (mkInput false true false None 0 None [] []) sample_state).
  reflexivity.
Defined.

(** X23: from the landing page, pressing "Go to Dashboard" ends the run
    with a rerun request and the mode "dashboard", the store and the
    table of the session untouched, so that the next run shows the
    dashboard. *)
Theorem go_opens_dashboard parse inp st :
  app_mode (session st) = None \/
  app_mode (session st) = Some "landing"%string ->
  go_clicked inp = true ->
  exists st',
    router parse inp st = (Raise RerunException, st') /\
    session st' = mkSession (csv_data (session st)) (Some "dashboard"%string) /\
    heap st' = heap st /\
    forall inp', router parse inp' st' = dashboard parse inp' st'.
Proof.
  intros Hmode Hgo. rewrite router_pages.
  assert (Hrun : forall s, exists st',
             landing_page inp s = (Raise RerunException, st') /\
             session st' = mkSession (csv_data (session s))
                                     (Some "dashboard"%string) /\
             heap st' = heap s).
  { intros s. unfold landing_page. rewrite Hgo. eexists.
    split; [reflexivity|done]. }
  destruct Hmode as [H|H]; rewrite H; cbn.
  - destruct (Hrun (mkState (heap st)
                      (mkSession (csv_data (session st))
                                 (Some "landing"%string)) (ui st)))
      as (st' & -> & Hs & Hh).
    exists st'. repeat split; try done.
    intros inp'. rewrite router_pages, Hs. done.
  - destruct (Hrun st) as (st' & -> & Hs & Hh).
    exists st'. repeat split; try done.
    intros inp'. rewrite router_pages, Hs. done.
Qed.

Lemma go_opens_dashboard_witness :
  exists st',
    router parse_sample (mkInput false false true None 0 None [] [])
      (mkState [] (mkSession None None) []) = (Raise RerunException, st') /\
    session st' = mkSession None (Some "dashboard"%string) /\
    heap st' = [] /\
    forall inp', router parse_sample inp' st' = dashboard parse_sample inp' st'.
Proof.
  apply (go_opens_dashboard parse_sample
           (mkInput false false true None 0 None [] [])
           (mkState [] (mkSession None None) [])).
  - by left.
  - reflexivity.
Defined.

(** X24: on the dashboard the refresh button is looked at first: when it
    is pressed the run ends with a rerun request and the session is as it
    was, even if the back button is pressed too; when only the back
    button is pressed the run ends with a rerun request and the mode
    "landing", the table of the session being kept. In both cases the
    store is untouched. *)
Theorem navbar_buttons parse inp st :
  app_mode (session st) = Some "dashboard"%string ->
  refresh_clicked inp = true \/ back_clicked inp = true ->
  exists st',
    router parse inp st = (Raise RerunException, st') /\
    heap st' = heap st /\
    session st' =
      (if refresh_clicked inp then session st
       else mkSession (csv_data (session st)) (Some "landing"%string)).
Proof.
  intros Hmode Hbtn. rewrite router_pages, Hmode. cbn.
  unfold dashboard, setup_page, render_navbar.
  destruct (refresh_clicked inp) eqn:Hr.
  - eexists. split; [reflexivity|done].
  - destruct Hbtn as [?|Hb]; [done|]. rewrite Hb.
    eexists. split; [reflexivity|done].
Qed.

Lemma navbar_buttons_witness :
  exists st',
    router parse_sample (mkInput true true false None 0 None [] [])
      sample_state = (Raise RerunException, st') /\
    heap st' = heap sample_state /\
    session st' = session sample_state.
Proof.
  apply (navbar_buttons parse_sample
           (mkInput true true false None 0 None [] []) sample_state).
  - reflexivity.
  - by left.
Defined.

(** X25: on the dashboard, with no button pressed, no file in the
    uploader and no table in the session, the run shows the header with
    its two buttons, the title of the sidebar and the file uploader,
    warns "Upload a CSV to begin." and returns; nothing else is put on
    the page, and the store and the session are untouched. *)
Theorem dashboard_without_data parse inp st :
  refresh_clicked inp = false ->
  back_clicked inp = false ->
  uploaded_file inp = None ->
  csv_data (session st) = None ->
  dashboard parse inp st =
    (Ok tt,
     mkState (heap st) (session st)
       (ui st ++ dashboard_header ++ [WWarning "Upload a CSV to begin."])).
Proof.
  intros Hr Hb Hup Hcsv.
  unfold dashboard, setup_page, render_navbar, render_sidebar.
  rewrite Hr, Hb, Hup.
  unfold mbind, M_bind, show, get_session, mret, M_ret. cbn [session heap ui].
  rewrite Hcsv. cbn [heap session ui].
  unfold dashboard_header, sidebar_upload, sidebar_title.
  by rewrite <- !app_assoc.
Qed.

Lemma dashboard_without_data_witness :
  dashboard parse_sample idle fresh_state =
    (Ok tt,
     mkState (heap fresh_state) (session fresh_state)
       (ui fresh_state ++ dashboard_header ++
        [WWarning "Upload a CSV to begin."])).
Proof.
  apply (dashboard_without_data parse_sample idle fresh_state);
    reflexivity.
Defined.
